(** * JEXAM: the live-session manager and the analytics aggregator

    A shallow embedding of the two data-access services of the repository:

    - [Mock]: the in-memory [MockBackendService] (arrays of records and the
      module-level [LIVE_SESSIONS] object used as a map from class id to
      session state);
    - [Firebase]: the [FirebaseService] of [src/services/api.ts], which keeps
      the same records as documents of Firestore collections.

    Every [async] method is embedded as a function on the store.  The bodies
    of the in-memory methods contain no suspension point between their reads
    and writes ([allowSpeaker] calls [lowerHand], whose body has no [await],
    so it runs to completion inside the caller's synchronous prefix); a call
    is therefore one transition of the store.  Values the methods take from
    the environment ([Date.now()], [new Date().toISOString()],
    [Math.random()], [uuidv4()]) are explicit arguments. *)

From stdpp Require Import gmap strings list fin_maps pretty sorting.
From Stdlib Require Import ZArith Ascii String.

Open Scope Z_scope.

(** ** Shared enumerations ([types.ts]) *)

Inductive UserRole := TEACHER | STUDENT | ADMIN.

Inductive StreamMode := CAMERA | SCREEN | WHITEBOARD.

#[global] Instance UserRole_eq_dec : EqDecision UserRole.
Proof. solve_decision. Defined.

#[global] Instance StreamMode_eq_dec : EqDecision StreamMode.
Proof. solve_decision. Defined.

(** [Array.prototype.includes] on an array of strings. *)
Definition includes (x : string) (l : list string) : bool :=
  bool_decide (x ∈ l).

(** [arr.filter(id => id !== x)]. *)
Definition without (x : string) (l : list string) : list string :=
  filter (λ id, id ≠ x) l.

(** [s.charCodeAt(i)] for the characters of an identifier.  Identifiers are
    ASCII ([student-<digits>], [teacher-1], Firebase uids), where the UTF-16
    code unit is the character's code. *)
Definition charCodeAt (a : ascii) : Z := Z.of_N (Ascii.N_of_ascii a).

(** ** The in-memory service ([MockBackendService]) *)

Module Mock.

Record User := mkUser {
  u_id : string;
  u_role : UserRole;
  u_name : string;
  u_student_code : option string
}.

(** [isLive] is declared optional, but every class the service holds or
    creates has it set. *)
Record ClassModel := mkClass {
  c_id : string;
  c_teacher_id : string;
  c_title : string;
  c_description : string;
  c_created_at : string;
  c_isLive : bool
}.

Record Enrollment := mkEnrollment {
  e_id : string;
  e_class_id : string;
  e_student_id : string
}.

Record StudentAnalytics := mkAnalytics {
  a_id : string;
  a_name : string;
  score : Z;
  attendance : Z
}.

Record LiveSessionState := mkSession {
  classId : string;
  isLive : bool;
  mode : StreamMode;
  raisedHands : list string;
  activeSpeakers : list string
}.

(** The service's private arrays together with the module-level
    [LIVE_SESSIONS] object, read as a finite map (class ids have the form
    [class-<digits>], so a lookup never reaches a property inherited from
    [Object.prototype]).  Videos, exams and posts are left out: no method
    below reads or writes them. *)
Record Store := mkStore {
  users : list User;
  classes : list ClassModel;
  enrollments : list Enrollment;
  LIVE_SESSIONS : gmap string LiveSessionState
}.

Definition MOCK_TEACHER_ID : string := "teacher-1".

Definition INITIAL_USERS : list User :=
  [ mkUser MOCK_TEACHER_ID TEACHER "Mr. Anderson" None ].

Definition INITIAL_CLASSES (boot : string) : list ClassModel :=
  [ mkClass "class-1" MOCK_TEACHER_ID "Advanced Mathematics"
      "Calculus and Linear Algebra" boot false;
    mkClass "class-2" MOCK_TEACHER_ID "Physics 101"
      "Mechanics and Thermodynamics" boot false ].

(** The store when the module has been loaded; [boot] is the ISO time
    stamp taken at load time. *)
Definition initial (boot : string) : Store :=
  mkStore INITIAL_USERS (INITIAL_CLASSES boot) [] ∅.

Definition with_users (f : list User → list User) (s : Store) : Store :=
  mkStore (f (users s)) (classes s) (enrollments s) (LIVE_SESSIONS s).

Definition with_classes (f : list ClassModel → list ClassModel) (s : Store)
  : Store :=
  mkStore (users s) (f (classes s)) (enrollments s) (LIVE_SESSIONS s).

Definition with_enrollments (f : list Enrollment → list Enrollment)
  (s : Store) : Store :=
  mkStore (users s) (classes s) (f (enrollments s)) (LIVE_SESSIONS s).

Definition with_sessions
  (f : gmap string LiveSessionState → gmap string LiveSessionState)
  (s : Store) : Store :=
  mkStore (users s) (classes s) (enrollments s) (f (LIVE_SESSIONS s)).

(** [this.classes.find(c => c.id === classId)]: the first match. *)
Fixpoint find_class (classId : string) (cs : list ClassModel)
  : option ClassModel :=
  match cs with
  | [] => None
  | c :: cs' =>
      if bool_decide (c_id c = classId) then Some c
      else find_class classId cs'
  end.

(** [this.users.find(u => u.id === userId)]. *)
Fixpoint find_user (userId : string) (us : list User) : option User :=
  match us with
  | [] => None
  | u :: us' =>
      if bool_decide (u_id u = userId) then Some u
      else find_user userId us'
  end.

Definition getClass (classId : string) (s : Store) : option ClassModel :=
  find_class classId (classes s).

Definition getUserById (userId : string) (s : Store) : option User :=
  find_user userId (users s).

Definition set_c_isLive (b : bool) (c : ClassModel) : ClassModel :=
  mkClass (c_id c) (c_teacher_id c) (c_title c) (c_description c)
    (c_created_at c) b.

(** [cls.isLive = isLive] on the object that [find] returned: the array
    holds that same object, so its first record with this id changes. *)
Fixpoint assign_isLive (classId : string) (b : bool) (cs : list ClassModel)
  : list ClassModel :=
  match cs with
  | [] => []
  | c :: cs' =>
      if bool_decide (c_id c = classId)
      then set_c_isLive b c :: cs'
      else c :: assign_isLive classId b cs'
  end.

Definition createClass (now : N) (iso : string)
  (teacherId title description : string) (s : Store)
  : ClassModel * Store :=
  let newClass :=
    mkClass ("class-" +:+ pretty now) teacherId title description iso false
  in
  (newClass, with_classes (λ cs, cs ++ [newClass]) s).

Definition fresh_session (classId : string) : LiveSessionState :=
  mkSession classId true CAMERA [] [].

Definition setClassLiveStatus (classId : string) (live : bool) (s : Store)
  : Store :=
  match find_class classId (classes s) with
  | Some _ =>
      let s1 := with_classes (assign_isLive classId live) s in
      if live
      then with_sessions (insert classId (fresh_session classId)) s1
      else with_sessions (delete classId) s1
  | None => s
  end.

(** [LIVE_SESSIONS[classId] || null]; a session object is never falsy. *)
Definition getLiveSessionState (classId : string) (s : Store)
  : option LiveSessionState :=
  LIVE_SESSIONS s !! classId.

Definition set_mode (m : StreamMode) (ss : LiveSessionState) :=
  mkSession (classId ss) (isLive ss) m (raisedHands ss) (activeSpeakers ss).

Definition set_raisedHands (l : list string) (ss : LiveSessionState) :=
  mkSession (classId ss) (isLive ss) (mode ss) l (activeSpeakers ss).

Definition set_activeSpeakers (l : list string) (ss : LiveSessionState) :=
  mkSession (classId ss) (isLive ss) (mode ss) (raisedHands ss) l.

Definition updateStreamMode (classId : string) (m : StreamMode) (s : Store)
  : Store :=
  match LIVE_SESSIONS s !! classId with
  | Some ss => with_sessions (insert classId (set_mode m ss)) s
  | None => s
  end.

Definition raiseHand (classId studentId : string) (s : Store) : Store :=
  match LIVE_SESSIONS s !! classId with
  | Some ss =>
      if negb (includes studentId (raisedHands ss))
      then with_sessions
             (insert classId
                (set_raisedHands (raisedHands ss ++ [studentId]) ss)) s
      else s
  | None => s
  end.

Definition lowerHand (classId studentId : string) (s : Store) : Store :=
  match LIVE_SESSIONS s !! classId with
  | Some ss =>
      with_sessions
        (insert classId
           (set_raisedHands (without studentId (raisedHands ss)) ss)) s
  | None => s
  end.

Definition allowSpeaker (classId studentId : string) (s : Store) : Store :=
  match LIVE_SESSIONS s !! classId with
  | Some ss =>
      let s1 :=
        if negb (includes studentId (activeSpeakers ss))
        then with_sessions
               (insert classId
                  (set_activeSpeakers (activeSpeakers ss ++ [studentId]) ss))
               s
        else s
      in
      (* Auto lower hand when accepted *)
      lowerHand classId studentId s1
  | None => s
  end.

Definition muteSpeaker (classId studentId : string) (s : Store) : Store :=
  match LIVE_SESSIONS s !! classId with
  | Some ss =>
      with_sessions
        (insert classId
           (set_activeSpeakers (without studentId (activeSpeakers ss)) ss)) s
  | None => s
  end.

Definition enrollStudent (now : N) (classId studentId : string) (s : Store)
  : Store :=
  with_enrollments
    (λ es, es ++ [mkEnrollment ("enroll-" +:+ pretty now) classId studentId])
    s.

Definition generateStudentCode (now : N) (code name : string) (s : Store)
  : (User * string) * Store :=
  let newUser := mkUser ("student-" +:+ pretty now) STUDENT name (Some code) in
  ((newUser, code), with_users (λ us, us ++ [newUser]) s).

Definition createStudentAndEnroll (now1 now2 : N) (code : string)
  (classId name : string) (s : Store) : (User * string) * Store :=
  let newUser := mkUser ("student-" +:+ pretty now1) STUDENT name (Some code) in
  let s1 := with_users (λ us, us ++ [newUser]) s in
  ((newUser, code),
   with_enrollments
     (λ es, es ++ [mkEnrollment ("enroll-" +:+ pretty now2) classId
                     (u_id newUser)]) s1).

(** The loop [for (i = 0; i < id.length; i++) seed += id.charCodeAt(i)]. *)
Definition seed_of (id : string) : Z :=
  fold_left (λ seed ch, seed + charCodeAt ch) (list_ascii_of_string id) 0.

Definition stats_row (student : User) : StudentAnalytics :=
  let seed := seed_of (u_id student) in
  mkAnalytics (u_id student) (u_name student)
    (70 + Z.rem seed 30) (80 + Z.rem seed 20).

Definition classEnrollments (classId : string) (s : Store)
  : list Enrollment :=
  filter (λ e, e_class_id e = classId) (enrollments s).

(** [.map(e => users.find(..)).filter(u => !!u)] keeps the profiles that
    were found, in order: that is [omap]. *)
Definition getClassAnalytics (classId : string) (s : Store)
  : list StudentAnalytics :=
  let students :=
    omap (λ e, find_user (e_student_id e) (users s))
      (classEnrollments classId s) in
  map stats_row students.

(** The calls a client can make that change the store. *)
Inductive Call :=
| CreateClass (now : N) (iso teacherId title description : string)
| SetClassLiveStatus (classId : string) (live : bool)
| UpdateStreamMode (classId : string) (m : StreamMode)
| RaiseHand (classId studentId : string)
| LowerHand (classId studentId : string)
| AllowSpeaker (classId studentId : string)
| MuteSpeaker (classId studentId : string)
| EnrollStudent (now : N) (classId studentId : string)
| GenerateStudentCode (now : N) (code name : string)
| CreateStudentAndEnroll (now1 now2 : N) (code classId name : string).

Definition step (k : Call) (s : Store) : Store :=
  match k with
  | CreateClass now iso t ti d => (createClass now iso t ti d s).2
  | SetClassLiveStatus c b => setClassLiveStatus c b s
  | UpdateStreamMode c m => updateStreamMode c m s
  | RaiseHand c u => raiseHand c u s
  | LowerHand c u => lowerHand c u s
  | AllowSpeaker c u => allowSpeaker c u s
  | MuteSpeaker c u => muteSpeaker c u s
  | EnrollStudent now c u => enrollStudent now c u s
  | GenerateStudentCode now code name => (generateStudentCode now code name s).2
  | CreateStudentAndEnroll n1 n2 code c name =>
      (createStudentAndEnroll n1 n2 code c name s).2
  end.

Definition run (ks : list Call) (s : Store) : Store :=
  fold_left (λ s k, step k s) ks s.

Inductive reachable : Store → Prop :=
| reach_initial boot : reachable (initial boot)
| reach_step k s : reachable s → reachable (step k s).

(** The calls that only touch the hand and speaker lists. *)
Definition membership_call (k : Call) : bool :=
  match k with
  | RaiseHand _ _ | LowerHand _ _ | AllowSpeaker _ _ | MuteSpeaker _ _ => true
  | _ => false
  end.

(** *** Invariants of the store *)

(** A session record exists for a class id exactly when the class the
    service resolves for that id is flagged live. *)
Definition live_iff_session (s : Store) : Prop :=
  ∀ c, is_Some (LIVE_SESSIONS s !! c)
       ↔ ∃ cls, getClass c s = Some cls ∧ c_isLive cls = true.

(** The two membership arrays of every session hold each id at most
    once. *)
Definition distinct_ids (s : Store) : Prop :=
  ∀ c ss, LIVE_SESSIONS s !! c = Some ss →
          NoDup (raisedHands ss) ∧ NoDup (activeSpeakers ss).

(** Two session records that agree on every field but one. *)
Definition same_but_mode (ss ss' : LiveSessionState) : Prop :=
  classId ss' = classId ss ∧ isLive ss' = isLive ss
  ∧ raisedHands ss' = raisedHands ss
  ∧ activeSpeakers ss' = activeSpeakers ss.

Definition same_but_raisedHands (ss ss' : LiveSessionState) : Prop :=
  classId ss' = classId ss ∧ isLive ss' = isLive ss ∧ mode ss' = mode ss
  ∧ activeSpeakers ss' = activeSpeakers ss.

Definition same_but_activeSpeakers (ss ss' : LiveSessionState) : Prop :=
  classId ss' = classId ss ∧ isLive ss' = isLive ss ∧ mode ss' = mode ss
  ∧ raisedHands ss' = raisedHands ss.

(** [s'] is [s], or [s] with the existing session record of [c] replaced
    by another record. *)
Definition touches (c : string) (s s' : Store) : Prop :=
  s' = s ∨ ∃ ss ss', LIVE_SESSIONS s !! c = Some ss
                     ∧ s' = with_sessions (insert c ss') s.

(** [s'] differs from [s] at most in the session record of [c]. *)
Definition same_elsewhere (c : string) (s s' : Store) : Prop :=
  users s' = users s ∧ classes s' = classes s
  ∧ enrollments s' = enrollments s
  ∧ ∀ c', c' ≠ c → LIVE_SESSIONS s' !! c' = LIVE_SESSIONS s !! c'.

(** *** Authentication and class lists *)

(** The predicate of [loginStudent]:
    [u.role === UserRole.STUDENT && u.student_code === code]; a user without
    a code never matches. *)
Definition is_student_with_code (code : string) (u : User) : bool :=
  bool_decide (u_role u = STUDENT)
  && bool_decide (u_student_code u = Some code).

(** [this.users.find(..) || null]. *)
Definition loginStudent (code : string) (s : Store) : option User :=
  List.find (is_student_with_code code) (users s).

Definition getClasses (userId : string) (role : UserRole) (s : Store)
  : list ClassModel :=
  if bool_decide (role = TEACHER) then
    (* Teachers see classes they created *)
    filter (λ c, c_teacher_id c = userId) (classes s)
  else
    (* Students see classes they are enrolled in *)
    let enrolledIds :=
      map e_class_id (filter (λ e, e_student_id e = userId) (enrollments s)) in
    filter (λ c, includes (c_id c) enrolledIds = true) (classes s).

(** *** The handlers of the class page that drive the session calls *)

(** [handleRaiseHand]: [liveState] is the session state the page polled
    last, [null] when it saw none; [liveState?.raisedHands.includes(..)] is
    then [undefined], and the hand is raised. *)
Definition handleRaiseHand (liveState : option LiveSessionState)
  (classId userId : string) (s : Store) : Store :=
  match liveState with
  | Some st =>
      if includes userId (raisedHands st) then lowerHand classId userId s
      else raiseHand classId userId s
  | None => raiseHand classId userId s
  end.

(** The list of hand raisers the polling loop shows: the profiles of
    [sessionState.raisedHands] that [getUserById] finds, or nothing when
    there is no session or no hand. *)
Definition raisedHandUsers (s : Store) (sessionState : option LiveSessionState)
  : list User :=
  match sessionState with
  | Some st =>
      if bool_decide (0 < List.length (raisedHands st))%nat
      then omap (λ id, getUserById id s) (raisedHands st)
      else []
  | None => []
  end.

(** *** Videos and exams

    The arrays [videos] and [exams] of the service; the methods below use
    nothing else of it.  ([getPosts] orders with [localeCompare], whose
    collation is the host's, and is left out.) *)

Record Video := mkVideo {
  v_id : string;
  v_class_id : string;
  v_teacher_id : string;
  v_title : string;
  v_storage_url : string;
  v_duration : Z;
  v_uploaded_at : string
}.

Inductive QuestionKind := mcq | text | boolean.

Record Question := mkQuestion {
  q_id : string;
  q_exam_id : string;
  q_kind : QuestionKind;
  q_body : string;
  q_image_url : option string;
  q_choices : option (list string);
  q_correct_answer : option string;
  q_points : Z
}.

Record Exam := mkExam {
  x_id : string;
  x_class_id : string;
  x_teacher_id : string;
  x_title : string;
  x_description : string;
  x_time_limit_minutes : Z;
  x_questions : option (list Question)
}.

Record Content := mkContent {
  videos : list Video;
  exams : list Exam
}.

Definition getVideos (classId : string) (k : Content) : list Video :=
  filter (λ v, v_class_id v = classId) (videos k).

(** [url] is what [URL.createObjectURL(file)] returned. *)
Definition uploadVideo (now : N) (iso url : string)
  (classId teacherId title : string) (k : Content) : Video * Content :=
  let newVideo :=
    mkVideo ("vid-" +:+ pretty now) classId teacherId title url 0 iso in
  (newVideo, mkContent (videos k ++ [newVideo]) (exams k)).

Definition getExams (classId : string) (k : Content) : list Exam :=
  filter (λ e, x_class_id e = classId) (exams k).

(** [{ ...exam, id: `exam-${Date.now()}` }]. *)
Definition createExam (now : N) (exam : Exam) (k : Content) : Exam * Content :=
  let newExam :=
    mkExam ("exam-" +:+ pretty now) (x_class_id exam) (x_teacher_id exam)
      (x_title exam) (x_description exam) (x_time_limit_minutes exam)
      (x_questions exam) in
  (newExam, mkContent (videos k) (exams k ++ [newExam])).

(** The session record as changed by each of the five session calls. *)
Definition session_change (k : Call)
  : option (string * (LiveSessionState → LiveSessionState)) :=
  match k with
  | UpdateStreamMode c m => Some (c, set_mode m)
  | RaiseHand c u =>
      Some (c, λ ss, set_raisedHands
                       (if includes u (raisedHands ss) then raisedHands ss
                        else raisedHands ss ++ [u]) ss)
  | LowerHand c u =>
      Some (c, λ ss, set_raisedHands (without u (raisedHands ss)) ss)
  | AllowSpeaker c u =>
      Some (c, λ ss, mkSession (classId ss) (isLive ss) (mode ss)
                       (without u (raisedHands ss))
                       (if includes u (activeSpeakers ss)
                        then activeSpeakers ss
                        else activeSpeakers ss ++ [u]))
  | MuteSpeaker c u =>
      Some (c, λ ss, set_activeSpeakers (without u (activeSpeakers ss)) ss)
  | _ => None
  end.

End Mock.

(** ** The Firestore service ([FirebaseService]) *)

Module Firebase.

Record User := mkUser {
  u_id : string;
  u_role : UserRole;
  u_name : string;
  u_email : option string;
  u_student_code : option string
}.

Record ClassModel := mkClass {
  c_id : string;
  c_teacher_id : string;
  c_title : string;
  c_description : string;
  c_created_at : string;
  c_isLive : bool;
  c_join_code : option string
}.

Record Enrollment := mkEnrollment {
  e_id : string;
  e_class_id : string;
  e_student_id : string;
  e_enrolled_at : string
}.

Record StudentAnalytics := mkAnalytics {
  a_id : string;
  a_name : string;
  score : Z;
  attendance : Z;
  submissions_count : Z
}.

Record LiveSessionState := mkSession {
  classId : string;
  isLive : bool;
  mode : StreamMode;
  raisedHands : list string;
  activeSpeakers : list string;
  started_at : N
}.

(** The four Firestore collections the methods below use, each a map from
    document id to document. *)
Record Db := mkDb {
  classes : gmap string ClassModel;
  sessions : gmap string LiveSessionState;
  users : gmap string User;
  enrollments : gmap string Enrollment
}.

(** *** A state-and-exception monad for Firestore calls

    A rejected promise leaves every write made before it in the
    database, so a computation returns the database together with its
    outcome. *)

Inductive FirestoreError := NotFound.

Inductive outcome (A : Type) :=
| Ok (a : A)
| Rejected (e : FirestoreError).
Arguments Ok {A} a.
Arguments Rejected {A} e.

Definition Fire (A : Type) : Type := Db → Db * outcome A.

Definition ret {A} (a : A) : Fire A := λ db, (db, Ok a).

Definition bind {A B} (m : Fire A) (k : A → Fire B) : Fire B :=
  λ db, match m db with
        | (db', Ok a) => k a db'
        | (db', Rejected e) => (db', Rejected e)
        end.

#[global] Instance Fire_ret : MRet Fire := @ret.

#[global] Instance Fire_bind : MBind Fire := λ A B k m, bind m k.

(** The database after a call, and whether the call resolved. *)
Definition after {A} (m : Fire A) (db : Db) : Db := (m db).1.

Definition resolves {A} (m : Fire A) (db : Db) : bool :=
  match (m db).2 with Ok _ => true | Rejected _ => false end.

(** A collection reference, [collection(db, name)]. *)
Record Collection (A : Type) := mkCollection {
  docs : Db → gmap string A;
  put_docs : gmap string A → Db → Db
}.
Arguments docs {A} _ _.
Arguments put_docs {A} _ _ _.

Definition classesC : Collection ClassModel :=
  mkCollection _ classes
    (λ m db, mkDb m (sessions db) (users db) (enrollments db)).

Definition sessionsC : Collection LiveSessionState :=
  mkCollection _ sessions
    (λ m db, mkDb (classes db) m (users db) (enrollments db)).

Definition usersC : Collection User :=
  mkCollection _ users
    (λ m db, mkDb (classes db) (sessions db) m (enrollments db)).

Definition enrollmentsC : Collection Enrollment :=
  mkCollection _ enrollments
    (λ m db, mkDb (classes db) (sessions db) (users db) m).

(** The Firestore primitives, as the SDK documents them: [getDoc] yields a
    snapshot whose [exists()] tells whether the document is there;
    [setDoc] creates the document or overwrites it whole; [updateDoc]
    changes the given fields of an existing document and rejects with
    not-found when there is none; [deleteDoc] resolves whether or not
    the document exists. *)
Definition getDoc {A} (C : Collection A) (key : string) : Fire (option A) :=
  λ db, (db, Ok (docs C db !! key)).

Definition setDoc {A} (C : Collection A) (key : string) (d : A) : Fire unit :=
  λ db, (put_docs C (<[key := d]> (docs C db)) db, Ok tt).

Definition updateDoc {A} (C : Collection A) (key : string) (f : A → A)
  : Fire unit :=
  λ db, match docs C db !! key with
        | Some d => (put_docs C (<[key := f d]> (docs C db)) db, Ok tt)
        | None => (db, Rejected NotFound)
        end.

Definition deleteDoc {A} (C : Collection A) (key : string) : Fire unit :=
  λ db, (put_docs C (delete key (docs C db)) db, Ok tt).

(** [getDocs(query(collection, where(field, '==', v)))]: the documents that
    satisfy the condition, each once, with their ids.  Firestore returns
    them by document id; here they come in the map's own enumeration
    order. *)
Definition getDocs_where {A} (C : Collection A) (P : A → bool)
  : Fire (list (string * A)) :=
  λ db, (db, Ok (filter (λ kd, P kd.2 = true) (map_to_list (docs C db)))).

(** *** Field updates: the objects passed to [updateDoc] *)

Definition set_c_isLive (b : bool) (c : ClassModel) : ClassModel :=
  mkClass (c_id c) (c_teacher_id c) (c_title c) (c_description c)
    (c_created_at c) b (c_join_code c).

Definition set_mode (m : StreamMode) (ss : LiveSessionState) :=
  mkSession (classId ss) (isLive ss) m (raisedHands ss) (activeSpeakers ss)
    (started_at ss).

Definition set_raisedHands (l : list string) (ss : LiveSessionState) :=
  mkSession (classId ss) (isLive ss) (mode ss) l (activeSpeakers ss)
    (started_at ss).

Definition set_activeSpeakers (l : list string) (ss : LiveSessionState) :=
  mkSession (classId ss) (isLive ss) (mode ss) (raisedHands ss) l
    (started_at ss).

(** The database with the session document of [c] set to [ss]. *)
Definition put_session (c : string) (ss : LiveSessionState) (db : Db) : Db :=
  mkDb (classes db) (<[c := ss]> (sessions db)) (users db) (enrollments db).

(** *** The methods *)

Definition createClass (id iso join_code teacherId title description : string)
  : Fire ClassModel :=
  let newClass :=
    mkClass id teacherId title description iso false (Some join_code) in
  setDoc classesC id newClass ;;
  ret newClass.

Definition fresh_session (classId : string) (now : N) : LiveSessionState :=
  mkSession classId true CAMERA [] [] now.

Definition setClassLiveStatus (classId : string) (live : bool) (now : N)
  : Fire unit :=
  updateDoc classesC classId (set_c_isLive live) ;;
  if live
  then setDoc sessionsC classId (fresh_session classId now)
  else deleteDoc sessionsC classId.

(** What [subscribeToSession]'s listener is called with for the current
    database: the session document, or [null] when there is none. *)
Definition sessionSnapshot (classId : string) (db : Db)
  : option LiveSessionState :=
  sessions db !! classId.

Definition updateStreamMode (classId : string) (m : StreamMode)
  : Fire unit :=
  updateDoc sessionsC classId (set_mode m).

Definition raiseHand (classId userId : string) : Fire unit :=
  snap ← getDoc sessionsC classId;
  match snap with
  | Some data =>
      if negb (includes userId (raisedHands data))
      then
        let newHands := raisedHands data ++ [userId] in
        updateDoc sessionsC classId (set_raisedHands newHands)
      else ret tt
  | None => ret tt
  end.

Definition lowerHand (classId userId : string) : Fire unit :=
  snap ← getDoc sessionsC classId;
  match snap with
  | Some data =>
      let newHands := without userId (raisedHands data) in
      updateDoc sessionsC classId (set_raisedHands newHands)
  | None => ret tt
  end.

Definition allowSpeaker (classId userId : string) : Fire unit :=
  snap ← getDoc sessionsC classId;
  match snap with
  | Some data =>
      let newSpeakers := activeSpeakers data ++ [userId] in
      let newHands := without userId (raisedHands data) in
      updateDoc sessionsC classId
        (λ d, set_raisedHands newHands (set_activeSpeakers newSpeakers d))
  | None => ret tt
  end.

Definition enrollStudent (id iso classId studentId : string) : Fire unit :=
  setDoc enrollmentsC id (mkEnrollment id classId studentId iso).

(** [createStudentAndEnroll] once the identity provider has created the
    account and returned its [uid]. *)
Definition createStudentAndEnroll (uid code enrollId iso classId name : string)
  : Fire (User * string) :=
  let email := code +:+ "@student.jexam.com" in
  let newUser := mkUser uid STUDENT name (Some email) (Some code) in
  setDoc usersC (u_id newUser) newUser ;;
  enrollStudent enrollId iso classId (u_id newUser) ;;
  ret (newUser, code).

Definition getUserById (userId : string) : Fire (option User) :=
  getDoc usersC userId.

Definition stats_row (user : User) : StudentAnalytics :=
  mkAnalytics (u_id user) (u_name user) 85 90 5.

(** The snapshot of the query [where('class_id', '==', classId)] over the
    enrollments. *)
Definition classEnrollmentDocs (classId : string) (db : Db)
  : list (string * Enrollment) :=
  filter (λ kd, bool_decide (e_class_id kd.2 = classId) = true)
    (map_to_list (enrollments db)).

(** The body of [for (const enrollDoc of enrollSnap.docs)], with [stats]
    the array built so far. *)
Fixpoint analytics_loop (enrollDocs : list (string * Enrollment))
  (stats : list StudentAnalytics) : Fire (list StudentAnalytics) :=
  match enrollDocs with
  | [] => ret stats
  | enrollDoc :: rest =>
      let enroll := enrollDoc.2 in
      userDoc ← getDoc usersC (e_student_id enroll);
      match userDoc with
      | Some user => analytics_loop rest (stats ++ [stats_row user])
      | None => analytics_loop rest stats
      end
  end.

Definition getClassAnalytics (classId : string)
  : Fire (list StudentAnalytics) :=
  enrollSnap ← getDocs_where enrollmentsC
                 (λ e, bool_decide (e_class_id e = classId));
  analytics_loop enrollSnap [].

(** The calls a client can make that change the database. *)
Inductive Call :=
| CreateClass (id iso join_code teacherId title description : string)
| SetClassLiveStatus (classId : string) (live : bool) (now : N)
| UpdateStreamMode (classId : string) (m : StreamMode)
| RaiseHand (classId userId : string)
| LowerHand (classId userId : string)
| AllowSpeaker (classId userId : string)
| EnrollStudent (id iso classId studentId : string)
| CreateStudentAndEnroll (uid code enrollId iso classId name : string).

Definition step (k : Call) (db : Db) : Db :=
  match k with
  | CreateClass id iso j t ti d => after (createClass id iso j t ti d) db
  | SetClassLiveStatus c b now => after (setClassLiveStatus c b now) db
  | UpdateStreamMode c m => after (updateStreamMode c m) db
  | RaiseHand c u => after (raiseHand c u) db
  | LowerHand c u => after (lowerHand c u) db
  | AllowSpeaker c u => after (allowSpeaker c u) db
  | EnrollStudent id iso c u => after (enrollStudent id iso c u) db
  | CreateStudentAndEnroll uid code eid iso c name =>
      after (createStudentAndEnroll uid code eid iso c name) db
  end.

Definition run (ks : list Call) (db : Db) : Db :=
  fold_left (λ db k, step k db) ks db.

(** Session documents are written by this service only, so the service
    starts from a database without any. *)
Inductive reachable : Db → Prop :=
| reach_initial db : sessions db = ∅ → reachable db
| reach_step k db : reachable db → reachable (step k db).

(** Every session document belongs to a class document. *)
Definition sessions_have_class (db : Db) : Prop :=
  ∀ c, is_Some (sessions db !! c) → is_Some (classes db !! c).

(** Two session documents that agree on every field but one. *)
Definition same_but_mode (ss ss' : LiveSessionState) : Prop :=
  classId ss' = classId ss ∧ isLive ss' = isLive ss
  ∧ raisedHands ss' = raisedHands ss
  ∧ activeSpeakers ss' = activeSpeakers ss
  ∧ started_at ss' = started_at ss.

Definition same_but_raisedHands (ss ss' : LiveSessionState) : Prop :=
  classId ss' = classId ss ∧ isLive ss' = isLive ss ∧ mode ss' = mode ss
  ∧ activeSpeakers ss' = activeSpeakers ss
  ∧ started_at ss' = started_at ss.

(** The raised hands of every session document hold each id at most once. *)
Definition distinct_hands (db : Db) : Prop :=
  ∀ c ss, sessions db !! c = Some ss → NoDup (raisedHands ss).

(** [db'] differs from [db] at most in the session document of [c]. *)
Definition same_elsewhere (c : string) (db db' : Db) : Prop :=
  users db' = users db ∧ classes db' = classes db
  ∧ enrollments db' = enrollments db
  ∧ ∀ c', c' ≠ c → sessions db' !! c' = sessions db !! c'.

(** *** Signing in *)

(** The address [login] passes to the identity provider: a student who
    gives something without an [@] is signed in as
    [<code>@student.jexam.com]. *)
Definition loginEmail (email code : string) (role : UserRole) : string :=
  if bool_decide (role = STUDENT)
     && negb (bool_decide ("@"%char ∈ list_ascii_of_string email))
  then code +:+ "@student.jexam.com"
  else email.

(** *** Class lists *)

(** The order of ISO time stamps used by [orderBy(field, 'desc')]:
    Firestore compares strings byte by byte. *)
Definition not_older (a b : string) : Prop := String.leb b a = true.

#[global] Instance not_older_dec : RelDecision not_older.
Proof. intros a b. unfold not_older. apply _. Defined.

Definition by_field_desc {A} (field : A → string) : relation (string * A) :=
  λ x y, not_older (field x.2) (field y.2).

#[global] Instance by_field_desc_dec {A} (field : A → string) :
  RelDecision (by_field_desc field).
Proof. intros x y. unfold by_field_desc. apply _. Defined.

(** [getDocs(query(collection, where(..), orderBy(field, 'desc')))].  The
    documents that satisfy the condition, sorted on the field; documents
    with equal fields come in the order of the unsorted snapshot (Firestore
    puts them by document id).  The index such a query needs is taken as
    deployed. *)
Definition getDocs_where_orderBy_desc {A} (C : Collection A) (P : A → bool)
  (field : A → string) : Fire (list (string * A)) :=
  λ db, (db, Ok (merge_sort (by_field_desc field)
                   (filter (λ kd, P kd.2 = true) (map_to_list (docs C db))))).

Definition getClasses (userId : string) (role : UserRole)
  : Fire (list ClassModel) :=
  if bool_decide (role = TEACHER) then
    snapshot ← getDocs_where_orderBy_desc classesC
                 (λ c, bool_decide (c_teacher_id c = userId)) c_created_at;
    ret (snapshot.*2)
  else
    (* Get enrollments first *)
    enrollSnap ← getDocs_where enrollmentsC
                   (λ e, bool_decide (e_student_id e = userId));
    let classIds := map (λ d, e_class_id d.2) enrollSnap in
    if bool_decide (List.length classIds = 0%nat) then ret []
    else
      snapshot ← getDocs_where classesC
                   (λ c, includes (c_id c) (take 10 classIds));
      ret (snapshot.*2).

(** Every class document is stored under its own id, as [createClass]
    writes it. *)
Definition classes_keyed_by_id (db : Db) : Prop :=
  ∀ key c, classes db !! key = Some c → c_id c = key.

(** *** Videos, exams and posts

    The collections [videos], [exams] and [posts]; the methods on them use
    nothing else of the database, and their writes are [setDoc]s, which
    always resolve. *)

Record Video := mkVideo {
  v_id : string;
  v_class_id : string;
  v_teacher_id : string;
  v_title : string;
  v_storage_url : string;
  v_duration : Z;
  v_uploaded_at : string;
  v_mime_type : option string
}.

Inductive QuestionKind := mcq | text | boolean.

Record Question := mkQuestion {
  q_id : string;
  q_kind : QuestionKind;
  q_body : string;
  q_image_url : option string;
  q_choices : option (list string);
  q_correct_answer : option string;
  q_points : Z
}.

Record Exam := mkExam {
  x_id : string;
  x_class_id : string;
  x_teacher_id : string;
  x_title : string;
  x_description : string;
  x_time_limit_minutes : Z;
  x_questions : list Question;
  x_created_at : string;
  x_active : bool
}.

Record ForumPost := mkPost {
  p_id : string;
  p_class_id : string;
  p_author_id : string;
  p_author_name : string;
  p_title : string;
  p_body : string;
  p_created_at : string;
  p_replies : option Z
}.

Record Library := mkLibrary {
  videos : gmap string Video;
  exams : gmap string Exam;
  posts : gmap string ForumPost
}.

(** The documents of a [where(..)] query with [orderBy(field, 'desc')], as
    in [getDocs_where_orderBy_desc]. *)
Definition query_desc {A} (docs : gmap string A) (P : A → Prop)
  `{!∀ d, Decision (P d)} (field : A → string) : list A :=
  (merge_sort (by_field_desc field)
     (filter (λ kd, P kd.2) (map_to_list docs))).*2.

Definition getVideos (classId : string) (lib : Library) : list Video :=
  query_desc (videos lib) (λ v, v_class_id v = classId) v_uploaded_at.

(** [uploadVideo] once the storage upload has given [downloadURL];
    [mime] is [file.type]. *)
Definition uploadVideo (videoId iso downloadURL mime : string)
  (classId teacherId title : string) (lib : Library) : Video * Library :=
  let newVideo :=
    mkVideo videoId classId teacherId title downloadURL 0 iso (Some mime) in
  (newVideo,
   mkLibrary (<[videoId := newVideo]> (videos lib)) (exams lib) (posts lib)).

Definition getExams (classId : string) (lib : Library) : list Exam :=
  (filter (λ kd, x_class_id kd.2 = classId) (map_to_list (exams lib))).*2.

(** [{ ...exam, id, created_at: .., active: true }]. *)
Definition createExam (id iso : string) (exam : Exam) (lib : Library)
  : Exam * Library :=
  let newExam :=
    mkExam id (x_class_id exam) (x_teacher_id exam) (x_title exam)
      (x_description exam) (x_time_limit_minutes exam) (x_questions exam)
      iso true in
  (newExam,
   mkLibrary (videos lib) (<[id := newExam]> (exams lib)) (posts lib)).

Definition getPosts (classId : string) (lib : Library) : list ForumPost :=
  query_desc (posts lib) (λ p, p_class_id p = classId) p_created_at.

(** [{ ...post, id, created_at: .. }]; [post] comes without the two
    fields, which the record type here carries and the call overwrites. *)
Definition createPost (id iso : string) (post : ForumPost) (lib : Library)
  : ForumPost * Library :=
  let newPost :=
    mkPost id (p_class_id post) (p_author_id post) (p_author_name post)
      (p_title post) (p_body post) iso (p_replies post) in
  (newPost,
   mkLibrary (videos lib) (exams lib) (<[id := newPost]> (posts lib))).

(** *** The whiteboard

    The strokes of a class are the documents of the subcollection
    [classes/<classId>/whiteboard]; [coord] is the type of the canvas
    coordinates, which the service only carries along. *)

Inductive StrokeType := draw | erase.

Record WhiteboardPath (coord : Type) := mkPath {
  w_id : string;
  w_userId : string;
  w_color : string;
  w_lineWidth : Z;
  w_points : list (coord * coord);
  w_timestamp : N;
  w_type : StrokeType
}.
Arguments mkPath {coord} _ _ _ _ _ _ _.
Arguments w_id {coord} _.
Arguments w_userId {coord} _.
Arguments w_color {coord} _.
Arguments w_lineWidth {coord} _.
Arguments w_points {coord} _.
Arguments w_timestamp {coord} _.
Arguments w_type {coord} _.

(** The whiteboard subcollection of a class; one that was never written is
    empty. *)
Definition board {coord} (classId : string)
  (bs : gmap string (gmap string (WhiteboardPath coord)))
  : gmap string (WhiteboardPath coord) :=
  default ∅ (bs !! classId).

Definition sendWhiteboardPath {coord} (classId : string)
  (path : WhiteboardPath coord)
  (bs : gmap string (gmap string (WhiteboardPath coord)))
  : gmap string (gmap string (WhiteboardPath coord)) :=
  <[classId := <[w_id path := path]> (board classId bs)]> bs.

Definition by_timestamp {coord} : relation (string * WhiteboardPath coord) :=
  λ x y, (w_timestamp x.2 ≤ w_timestamp y.2)%N.

#[global] Instance by_timestamp_dec {coord} :
  RelDecision (@by_timestamp coord).
Proof. intros x y. unfold by_timestamp. apply _. Defined.

(** What the listener of [subscribeToWhiteboard] is called with: the
    strokes by [orderBy('timestamp', 'asc')]; strokes with equal time
    stamps come in the order of the unsorted snapshot. *)
Definition whiteboardSnapshot {coord} (classId : string)
  (bs : gmap string (gmap string (WhiteboardPath coord)))
  : list (WhiteboardPath coord) :=
  (merge_sort by_timestamp (map_to_list (board classId bs))).*2.

Definition deleteStroke {coord} (classId key : string)
  (bs : gmap string (gmap string (WhiteboardPath coord)))
  : gmap string (gmap string (WhiteboardPath coord)) :=
  <[classId := delete key (board classId bs)]> bs.

(** [clearWhiteboard]: one [deleteDoc] for each document of the snapshot
    taken first. *)
Definition clearWhiteboard {coord} (classId : string)
  (bs : gmap string (gmap string (WhiteboardPath coord)))
  : gmap string (gmap string (WhiteboardPath coord)) :=
  let snapshot := map_to_list (board classId bs) in
  fold_left (λ bs d, deleteStroke classId d.1 bs) snapshot bs.

(** A session document exists for a class id exactly when the class
    document of that id is flagged live. *)
Definition live_iff_session (db : Db) : Prop :=
  ∀ c, is_Some (sessions db !! c)
       ↔ ∃ k, classes db !! c = Some k ∧ c_isLive k = true.

(** [createClass] is given an id that no class document has yet (what
    [uuidv4()] is relied on for); the other calls are unconstrained. *)
Definition uses_fresh_id (k : Call) (db : Db) : Prop :=
  match k with
  | CreateClass id _ _ _ _ _ => classes db !! id = None
  | _ => True
  end.

End Firebase.

(** ** Scenario stores used to exercise the statements *)

Module Scenario.

Definition boot : string := "2024-01-01T00:00:00.000Z".

(** [class-1] is live and two students have their hands up. *)
Definition mock_hands_up : Mock.Store :=
  Mock.run [Mock.SetClassLiveStatus "class-1" true;
            Mock.RaiseHand "class-1" "student-7";
            Mock.RaiseHand "class-1" "student-9"]
    (Mock.initial boot).

Definition fb_empty : Firebase.Db := Firebase.mkDb ∅ ∅ ∅ ∅.

(** One class, live since time 5, with one hand up. *)
Definition fb_hands_up : Firebase.Db :=
  Firebase.run
    [Firebase.CreateClass "c1" boot "JX42QK" "teacher-1" "Physics" "Mechanics";
     Firebase.SetClassLiveStatus "c1" true 5;
     Firebase.RaiseHand "c1" "student-7"]
    fb_empty.

(** The same class before it goes live. *)
Definition fb_offline : Firebase.Db :=
  Firebase.run
    [Firebase.CreateClass "c1" boot "JX42QK" "teacher-1" "Physics" "Mechanics"]
    fb_empty.

(** One student with a profile is enrolled in [class-1], together with
    an id that has no profile. *)
Definition mock_enrolled : Mock.Store :=
  Mock.run [Mock.CreateStudentAndEnroll 17 18 "K3J9ZQ" "class-1" "Bob";
            Mock.EnrollStudent 19 "class-1" "student-0"]
    (Mock.initial boot).

Definition fb_enrolled : Firebase.Db :=
  Firebase.run
    [Firebase.CreateStudentAndEnroll "uid1" "K3J9ZQ" "e1" boot "c1" "Bob";
     Firebase.EnrollStudent "e2" boot "c1" "ghost"]
    fb_offline.

(** A student is allowed to speak, raises the hand again and is allowed
    again. *)
Definition allowed_twice : list Firebase.Call :=
  [Firebase.SetClassLiveStatus "c1" true 5;
   Firebase.RaiseHand "c1" "student-7";
   Firebase.AllowSpeaker "c1" "student-7";
   Firebase.RaiseHand "c1" "student-7";
   Firebase.AllowSpeaker "c1" "student-7"].

(** A class document is written over the live class [c1]. *)
Definition fb_class_overwritten : Firebase.Db :=
  Firebase.run
    [Firebase.CreateClass "c1" boot "ZZ11AA" "teacher-1" "Physics" "Again"]
    fb_hands_up.

(** Two strokes on the whiteboard of [c1], sent out of time order. *)
Definition two_strokes : gmap string (gmap string (Firebase.WhiteboardPath Z)) :=
  Firebase.sendWhiteboardPath "c1"
    (Firebase.mkPath "p1" "teacher-1" "#000000" 3 [(1, 1); (2, 3)] 40
       Firebase.draw)
    (Firebase.sendWhiteboardPath "c1"
       (Firebase.mkPath "p2" "teacher-1" "#000000" 20 [(2, 2)] 70
          Firebase.erase) ∅).

End Scenario.

(** * Properties *)

(** ** Arrays of identifiers *)

Section Identifiers.

Implicit Types (x y : string) (l : list string).

Lemma includes_true x l : includes x l = true ↔ x ∈ l.
Proof. unfold includes. apply bool_decide_eq_true. Qed.

Lemma includes_false x l : includes x l = false ↔ x ∉ l.
Proof. unfold includes. apply bool_decide_eq_false. Qed.

Lemma elem_of_without x y l : y ∈ without x l ↔ y ∈ l ∧ y ≠ x.
Proof. unfold without. rewrite list_elem_of_filter. tauto. Qed.

Lemma not_elem_of_without x l : x ∉ without x l.
Proof. rewrite elem_of_without. tauto. Qed.

Lemma without_absent x l : x ∉ l → without x l = l.
Proof.
  unfold without. induction l as [|y l IH]; intros Hx; [done|].
  apply not_elem_of_cons in Hx as [Hne Hl].
  rewrite filter_cons_True by congruence. f_equal. auto.
Qed.

Lemma without_idemp x l : without x (without x l) = without x l.
Proof. apply without_absent, not_elem_of_without. Qed.

Lemma NoDup_without x l : NoDup l → NoDup (without x l).
Proof. apply NoDup_filter. Qed.

Lemma NoDup_push x l : NoDup l → x ∉ l → NoDup (l ++ [x]).
Proof.
  intros Hl Hx. apply NoDup_app. split_and!; [done| |apply NoDup_singleton].
  intros y Hy ->%list_elem_of_singleton. done.
Qed.

Lemma elem_of_push x y l : y ∈ l ++ [x] ↔ y ∈ l ∨ y = x.
Proof. rewrite elem_of_app, list_elem_of_singleton. tauto. Qed.

End Identifiers.

(** ** The in-memory service: what each call does to a live session *)

Section MockCalls.

Import Mock.
Implicit Types (s : Store) (ss : LiveSessionState) (c u : string).

Lemma store_eq s1 s2 :
  users s1 = users s2 → classes s1 = classes s2 →
  enrollments s1 = enrollments s2 → LIVE_SESSIONS s1 = LIVE_SESSIONS s2 →
  s1 = s2.
Proof. destruct s1, s2; simpl; congruence. Qed.

Lemma with_sessions_id s f : f (LIVE_SESSIONS s) = LIVE_SESSIONS s →
  with_sessions f s = s.
Proof. intros Hf. apply store_eq; simpl; auto. Qed.

Lemma raiseHand_live c u s ss :
  LIVE_SESSIONS s !! c = Some ss →
  raiseHand c u s =
    with_sessions
      (insert c (set_raisedHands
                   (if includes u (raisedHands ss) then raisedHands ss
                    else raisedHands ss ++ [u]) ss)) s.
Proof.
  intros Hss. unfold raiseHand. rewrite Hss.
  destruct (includes u (raisedHands ss)); simpl; [|done].
  symmetry. apply with_sessions_id, insert_id. rewrite Hss. by destruct ss.
Qed.

Lemma allowSpeaker_live c u s ss :
  LIVE_SESSIONS s !! c = Some ss →
  allowSpeaker c u s =
    with_sessions
      (insert c (mkSession (classId ss) (isLive ss) (mode ss)
                   (without u (raisedHands ss))
                   (if includes u (activeSpeakers ss) then activeSpeakers ss
                    else activeSpeakers ss ++ [u]))) s.
Proof.
  intros Hss. unfold allowSpeaker. rewrite Hss.
  destruct (includes u (activeSpeakers ss)); simpl; unfold lowerHand; simpl.
  - by rewrite Hss.
  - rewrite lookup_insert_eq. apply store_eq; simpl; auto.
    by rewrite insert_insert_eq.
Qed.

Lemma updateStreamMode_mock_live c m s ss :
  LIVE_SESSIONS s !! c = Some ss →
  updateStreamMode c m s = with_sessions (insert c (set_mode m ss)) s.
Proof. intros Hss. unfold updateStreamMode. by rewrite Hss. Qed.

Lemma lowerHand_live c u s ss :
  LIVE_SESSIONS s !! c = Some ss →
  lowerHand c u s =
    with_sessions
      (insert c (set_raisedHands (without u (raisedHands ss)) ss)) s.
Proof. intros Hss. unfold lowerHand. by rewrite Hss. Qed.

Lemma muteSpeaker_live c u s ss :
  LIVE_SESSIONS s !! c = Some ss →
  muteSpeaker c u s =
    with_sessions
      (insert c (set_activeSpeakers (without u (activeSpeakers ss)) ss)) s.
Proof. intros Hss. unfold muteSpeaker. by rewrite Hss. Qed.

(** Without a session record the five session calls return the store as
    it is. *)
Lemma session_calls_absent c s :
  LIVE_SESSIONS s !! c = None →
  (∀ m, updateStreamMode c m s = s)
  ∧ (∀ u, raiseHand c u s = s) ∧ (∀ u, lowerHand c u s = s)
  ∧ (∀ u, allowSpeaker c u s = s) ∧ (∀ u, muteSpeaker c u s = s).
Proof.
  intros Hno.
  unfold updateStreamMode, raiseHand, lowerHand, allowSpeaker, muteSpeaker.
  by rewrite Hno.
Qed.

(** Without a class record [setClassLiveStatus] returns the store as it
    is, and the session state read next is what it was. *)
Lemma setClassLiveStatus_noclass c b s :
  getClass c s = None → setClassLiveStatus c b s = s.
Proof. unfold getClass, setClassLiveStatus. by intros ->. Qed.

Lemma session_call_touches (k : Call) s :
  match k with
  | UpdateStreamMode c _ | RaiseHand c _ | LowerHand c _
  | AllowSpeaker c _ | MuteSpeaker c _ => touches c s (step k s)
  | _ => True
  end.
Proof.
  destruct k as [| | c m | c u | c u | c u | c u | | |]; try exact I; simpl;
    (destruct (LIVE_SESSIONS s !! c) as [ss|] eqn:Hss;
     [ right; exists ss; eexists; split; [done|]
     | left; by apply session_calls_absent ]).
  - by apply updateStreamMode_mock_live.
  - by apply raiseHand_live.
  - by apply lowerHand_live.
  - by apply allowSpeaker_live.
  - by apply muteSpeaker_live.
Qed.

Lemma touches_classes c s s' : touches c s s' → classes s' = classes s.
Proof. by intros [->|(ss & ss' & _ & ->)]. Qed.

Lemma touches_is_Some c s s' c' :
  touches c s s' →
  is_Some (LIVE_SESSIONS s' !! c') ↔ is_Some (LIVE_SESSIONS s !! c').
Proof.
  intros [->|(ss & ss' & Hss & ->)]; [done|]. simpl.
  destruct (decide (c = c')) as [<-|Hne].
  - rewrite lookup_insert_eq, Hss. split; eauto.
  - by rewrite lookup_insert_ne.
Qed.

(** [find] on the class array after the two kinds of update. *)
Lemma find_class_assign c b cs c' :
  find_class c' (assign_isLive c b cs) =
    if bool_decide (c' = c) then set_c_isLive b <$> find_class c cs
    else find_class c' cs.
Proof.
  induction cs as [|k cs IH]; simpl.
  - by case_bool_decide.
  - destruct (bool_decide (c_id k = c)) eqn:Hk; simpl.
    + apply bool_decide_eq_true in Hk. subst c.
      destruct (decide (c' = c_id k)) as [->|Hne].
      * by rewrite !bool_decide_eq_true_2.
      * rewrite (bool_decide_eq_false_2 (c_id k = c')) by congruence.
        by rewrite (bool_decide_eq_false_2 (c' = c_id k)).
    + apply bool_decide_eq_false in Hk.
      destruct (bool_decide (c_id k = c')) eqn:Hk'.
      * apply bool_decide_eq_true in Hk'. subst c'.
        by rewrite bool_decide_eq_false_2.
      * apply IH.
Qed.

Lemma find_class_push c cs k :
  find_class c (cs ++ [k]) =
    match find_class c cs with
    | Some x => Some x
    | None => if bool_decide (c_id k = c) then Some k else None
    end.
Proof.
  induction cs as [|k' cs IH]; simpl; [done|].
  by destruct (bool_decide (c_id k' = c)).
Qed.

(** *** The liveness invariant *)

Lemma live_iff_session_initial boot : live_iff_session (initial boot).
Proof.
  intros c. unfold getClass. simpl. rewrite lookup_empty. split.
  - by intros [? ?].
  - intros (cls & Hfind & Hlive). repeat case_bool_decide; naive_solver.
Qed.

Lemma live_iff_session_setClassLiveStatus c b s :
  live_iff_session s → live_iff_session (setClassLiveStatus c b s).
Proof.
  intros Hinv c'. unfold setClassLiveStatus.
  destruct (find_class c (classes s)) as [k|] eqn:Hk; [|apply Hinv].
  assert (getClass c'
            (if b
             then with_sessions (insert c (fresh_session c))
                    (with_classes (assign_isLive c b) s)
             else with_sessions (delete c)
                    (with_classes (assign_isLive c b) s))
          = if bool_decide (c' = c) then Some (set_c_isLive b k)
            else getClass c' s) as ->.
  { unfold getClass. destruct b; simpl; rewrite find_class_assign, Hk;
      by case_bool_decide. }
  case_bool_decide as Hc; [subst c'|].
  - destruct b; simpl.
    + rewrite lookup_insert_eq. split; [|by eauto]. intros _.
      by exists (set_c_isLive true k).
    + rewrite lookup_delete_eq. split; [by intros [? ?]|].
      by intros (cls & [= <-] & Hlive).
  - specialize (Hinv c'). destruct b; simpl.
    + by rewrite lookup_insert_ne.
    + by rewrite lookup_delete_ne.
Qed.

Lemma live_iff_session_createClass now iso t ti d s :
  live_iff_session s → live_iff_session (createClass now iso t ti d s).2.
Proof.
  intros Hinv c. rewrite (Hinv c). unfold getClass. simpl.
  rewrite find_class_push. destruct (find_class c (classes s)); [done|].
  simpl. split; [by intros (cls & [=] & _)|].
  intros (cls & Hfind & Hlive). case_bool_decide; [|done].
  injection Hfind as <-. done.
Qed.

Lemma live_iff_session_step k s :
  live_iff_session s → live_iff_session (step k s).
Proof.
  intros Hinv. pose proof (session_call_touches k s) as Ht.
  destruct k; simpl in *;
    try (intros c'; unfold getClass;
         rewrite (touches_is_Some _ _ _ c' Ht), (touches_classes _ _ _ Ht);
         apply Hinv);
    try exact Hinv.
  - by apply live_iff_session_createClass.
  - by apply live_iff_session_setClassLiveStatus.
Qed.

Lemma reachable_live_iff_session s : reachable s → live_iff_session s.
Proof.
  induction 1 as [boot|k s _ IH].
  - apply live_iff_session_initial.
  - by apply live_iff_session_step.
Qed.

(** When the class ids are pairwise distinct, every class record is the one
    resolved for its id, and the invariant reads record by record. *)
Lemma find_class_unique cs k :
  NoDup (c_id <$> cs) → k ∈ cs → find_class (c_id k) cs = Some k.
Proof.
  induction cs as [|k' cs IH]; simpl; intros Hnd Hin.
  - by apply elem_of_nil in Hin.
  - apply NoDup_cons in Hnd as [Hk' Hnd].
    apply elem_of_cons in Hin as [->|Hin].
    + by rewrite bool_decide_eq_true_2.
    + rewrite bool_decide_eq_false_2; [by apply IH|].
      intros Heq. apply Hk'. rewrite Heq. apply list_elem_of_fmap. eauto.
Qed.

Lemma live_iff_session_records s k :
  NoDup (c_id <$> classes s) → live_iff_session s → k ∈ classes s →
  c_isLive k = true ↔ is_Some (LIVE_SESSIONS s !! c_id k).
Proof.
  intros Hnd Hinv Hin. rewrite (Hinv (c_id k)). unfold getClass.
  rewrite (find_class_unique _ _ Hnd Hin). split.
  - intros Hlive. by exists k.
  - by intros (cls & [= <-] & Hlive).
Qed.

Lemma reachable_session_has_class s c :
  reachable s → is_Some (LIVE_SESSIONS s !! c) → is_Some (getClass c s).
Proof.
  intros Hr Hss. apply (reachable_live_iff_session s Hr c) in Hss.
  destruct Hss as (cls & -> & _). eauto.
Qed.

(** *** Uniqueness of the ids in the membership arrays *)

Lemma distinct_ids_put c ss' s :
  distinct_ids s → NoDup (raisedHands ss') → NoDup (activeSpeakers ss') →
  distinct_ids (with_sessions (insert c ss') s).
Proof.
  intros Hinv Hh Hsp c' ss. simpl.
  destruct (decide (c = c')) as [<-|Hne].
  - rewrite lookup_insert_eq. by intros [= <-].
  - rewrite lookup_insert_ne by done. apply Hinv.
Qed.

Lemma distinct_ids_step k s : distinct_ids s → distinct_ids (step k s).
Proof.
  intros Hinv.
  destruct k as [| c b | c m | c u | c u | c u | c u | | |]; simpl;
    try exact Hinv.
  - unfold setClassLiveStatus. destruct (find_class c (classes s)); [|done].
    destruct b.
    + apply (distinct_ids_put c (fresh_session c)
               (with_classes (assign_isLive c true) s));
        [exact Hinv|apply NoDup_nil_2..].
    + intros c' ss. simpl. rewrite lookup_delete_Some.
      intros [_ Hss]. by apply (Hinv c').
  - destruct (LIVE_SESSIONS s !! c) as [ss|] eqn:Hss;
      [|by rewrite (proj1 (session_calls_absent c s Hss))].
    rewrite (updateStreamMode_mock_live _ _ _ _ Hss).
    destruct (Hinv c ss Hss). by apply distinct_ids_put.
  - destruct (LIVE_SESSIONS s !! c) as [ss|] eqn:Hss;
      [|by rewrite (proj1 (proj2 (session_calls_absent c s Hss)))].
    rewrite (raiseHand_live _ _ _ _ Hss).
    destruct (Hinv c ss Hss). apply distinct_ids_put; simpl; [done| |done].
    destruct (includes u (raisedHands ss)) eqn:E; [done|].
    by apply NoDup_push, includes_false.
  - destruct (LIVE_SESSIONS s !! c) as [ss|] eqn:Hss;
      [|by rewrite (proj1 (proj2 (proj2 (session_calls_absent c s Hss))))].
    rewrite (lowerHand_live _ _ _ _ Hss).
    destruct (Hinv c ss Hss). apply distinct_ids_put; simpl; [done| |done].
    by apply NoDup_without.
  - destruct (LIVE_SESSIONS s !! c) as [ss|] eqn:Hss;
      [|by rewrite (proj1 (proj2 (proj2 (proj2
                      (session_calls_absent c s Hss)))))].
    rewrite (allowSpeaker_live _ _ _ _ Hss).
    destruct (Hinv c ss Hss). apply distinct_ids_put; simpl; [done| |].
    + by apply NoDup_without.
    + destruct (includes u (activeSpeakers ss)) eqn:E; [done|].
      by apply NoDup_push, includes_false.
  - destruct (LIVE_SESSIONS s !! c) as [ss|] eqn:Hss;
      [|by rewrite (proj2 (proj2 (proj2 (proj2
                      (session_calls_absent c s Hss)))))].
    rewrite (muteSpeaker_live _ _ _ _ Hss).
    destruct (Hinv c ss Hss). apply distinct_ids_put; simpl; [done|done|].
    by apply NoDup_without.
Qed.

Lemma distinct_ids_run ks s : distinct_ids s → distinct_ids (run ks s).
Proof.
  revert s. induction ks as [|k ks IH]; intros s Hinv; [done|].
  simpl. apply IH. by apply distinct_ids_step.
Qed.

Lemma reachable_distinct_ids s : reachable s → distinct_ids s.
Proof.
  induction 1 as [boot|k s _ IH].
  - intros c ss. simpl. by rewrite lookup_empty.
  - by apply distinct_ids_step.
Qed.

(** *** Calling twice *)

Lemma put_put c a b s :
  with_sessions (insert c a) (with_sessions (insert c b) s)
  = with_sessions (insert c a) s.
Proof. apply store_eq; simpl; auto. by rewrite insert_insert_eq. Qed.

Lemma lookup_put c a s :
  LIVE_SESSIONS (with_sessions (insert c a) s) !! c = Some a.
Proof. simpl. by rewrite lookup_insert_eq. Qed.

Lemma raiseHand_twice c u s : raiseHand c u (raiseHand c u s) = raiseHand c u s.
Proof.
  destruct (LIVE_SESSIONS s !! c) as [ss|] eqn:Hss.
  - rewrite (raiseHand_live _ _ _ _ Hss).
    rewrite (raiseHand_live _ _ _ _ (lookup_put _ _ _)), put_put. simpl.
    destruct (includes u (raisedHands ss)) eqn:E; [by rewrite E|].
    assert (includes u (raisedHands ss ++ [u]) = true) as ->; [|done].
    apply includes_true, elem_of_push. by right.
  - by rewrite !(proj1 (proj2 (session_calls_absent c s Hss))).
Qed.

Lemma lowerHand_twice c u s : lowerHand c u (lowerHand c u s) = lowerHand c u s.
Proof.
  destruct (LIVE_SESSIONS s !! c) as [ss|] eqn:Hss.
  - rewrite (lowerHand_live _ _ _ _ Hss).
    rewrite (lowerHand_live _ _ _ _ (lookup_put _ _ _)), put_put. simpl.
    by rewrite without_idemp.
  - by rewrite !(proj1 (proj2 (proj2 (session_calls_absent c s Hss)))).
Qed.

Lemma allowSpeaker_twice c u s :
  allowSpeaker c u (allowSpeaker c u s) = allowSpeaker c u s.
Proof.
  destruct (LIVE_SESSIONS s !! c) as [ss|] eqn:Hss.
  - rewrite (allowSpeaker_live _ _ _ _ Hss).
    rewrite (allowSpeaker_live _ _ _ _ (lookup_put _ _ _)), put_put. simpl.
    rewrite without_idemp.
    destruct (includes u (activeSpeakers ss)) eqn:E; [by rewrite E|].
    assert (includes u (activeSpeakers ss ++ [u]) = true) as ->; [|done].
    apply includes_true, elem_of_push. by right.
  - by rewrite !(proj1 (proj2 (proj2 (proj2 (session_calls_absent c s Hss))))).
Qed.

Lemma muteSpeaker_twice c u s :
  muteSpeaker c u (muteSpeaker c u s) = muteSpeaker c u s.
Proof.
  destruct (LIVE_SESSIONS s !! c) as [ss|] eqn:Hss.
  - rewrite (muteSpeaker_live _ _ _ _ Hss).
    rewrite (muteSpeaker_live _ _ _ _ (lookup_put _ _ _)), put_put. simpl.
    by rewrite without_idemp.
  - by rewrite !(proj2 (proj2 (proj2 (proj2 (session_calls_absent c s Hss))))).
Qed.

Lemma same_elsewhere_put c ss' s :
  same_elsewhere c s (with_sessions (insert c ss') s).
Proof.
  unfold same_elsewhere. simpl. split_and!; try done.
  intros c' Hne. by rewrite lookup_insert_ne.
Qed.

Lemma reachable_run ks s : reachable s → reachable (run ks s).
Proof.
  revert s. induction ks as [|k ks IH]; intros s Hr; [done|].
  simpl. apply IH. by constructor.
Qed.

End MockCalls.

(** ** The Firestore service: what each call does to a live session *)

Section FirebaseCalls.

Import Firebase.
Implicit Types (db : Db) (ss : LiveSessionState) (c u : string).

Lemma db_eta db :
  mkDb (classes db) (sessions db) (users db) (enrollments db) = db.
Proof. by destruct db. Qed.

Lemma put_session_id c ss db : sessions db !! c = Some ss →
  put_session c ss db = db.
Proof.
  intros Hss. unfold put_session. rewrite insert_id by done. apply db_eta.
Qed.

Lemma updateStreamMode_live c m db ss :
  sessions db !! c = Some ss →
  updateStreamMode c m db = (put_session c (set_mode m ss) db, Ok tt).
Proof. intros Hss. unfold updateStreamMode, updateDoc. simpl. by rewrite Hss. Qed.

Lemma raiseHand_fb_live c u db ss :
  sessions db !! c = Some ss →
  raiseHand c u db =
    (put_session c
       (set_raisedHands (if includes u (raisedHands ss) then raisedHands ss
                         else raisedHands ss ++ [u]) ss) db, Ok tt).
Proof.
  intros Hss. unfold raiseHand, mbind, Fire_bind, bind, getDoc. simpl.
  rewrite Hss. destruct (includes u (raisedHands ss)); simpl.
  - unfold ret. f_equal. symmetry. apply put_session_id.
    rewrite Hss. by destruct ss.
  - unfold updateDoc. simpl. by rewrite Hss.
Qed.

Lemma lowerHand_fb_live c u db ss :
  sessions db !! c = Some ss →
  lowerHand c u db =
    (put_session c (set_raisedHands (without u (raisedHands ss)) ss) db,
     Ok tt).
Proof.
  intros Hss. unfold lowerHand, mbind, Fire_bind, bind, getDoc. simpl.
  rewrite Hss. unfold updateDoc. simpl. by rewrite Hss.
Qed.

Lemma allowSpeaker_fb_live c u db ss :
  sessions db !! c = Some ss →
  allowSpeaker c u db =
    (put_session c
       (mkSession (classId ss) (isLive ss) (mode ss)
          (without u (raisedHands ss)) (activeSpeakers ss ++ [u])
          (started_at ss)) db, Ok tt).
Proof.
  intros Hss. unfold allowSpeaker, mbind, Fire_bind, bind, getDoc. simpl.
  rewrite Hss. unfold updateDoc. simpl. by rewrite Hss.
Qed.

Lemma updateStreamMode_absent c m db :
  sessions db !! c = None →
  updateStreamMode c m db = (db, Rejected NotFound).
Proof. intros Hno. unfold updateStreamMode, updateDoc. simpl. by rewrite Hno. Qed.

(** The three calls that look at the snapshot first resolve without
    writing when there is no session document. *)
Lemma guarded_calls_absent c u db :
  sessions db !! c = None →
  raiseHand c u db = (db, Ok tt) ∧ lowerHand c u db = (db, Ok tt)
  ∧ allowSpeaker c u db = (db, Ok tt).
Proof.
  intros Hno.
  unfold raiseHand, lowerHand, allowSpeaker, mbind, Fire_bind, bind, getDoc.
  simpl. by rewrite Hno.
Qed.

Lemma setClassLiveStatus_fb_class c b now db k :
  classes db !! c = Some k →
  setClassLiveStatus c b now db =
    (mkDb (<[c := set_c_isLive b k]> (classes db))
       (if b then <[c := fresh_session c now]> (sessions db)
        else delete c (sessions db))
       (users db) (enrollments db), Ok tt).
Proof.
  intros Hk. unfold setClassLiveStatus, mbind, Fire_bind, bind, updateDoc.
  simpl. rewrite Hk. by destruct b.
Qed.

Lemma setClassLiveStatus_fb_noclass c b now db :
  classes db !! c = None →
  setClassLiveStatus c b now db = (db, Rejected NotFound).
Proof.
  intros Hno. unfold setClassLiveStatus, mbind, Fire_bind, bind, updateDoc.
  simpl. by rewrite Hno.
Qed.

(** *** Sessions belong to classes *)

Lemma sessions_have_class_put c ss' db :
  is_Some (sessions db !! c) → sessions_have_class db →
  sessions_have_class (put_session c ss' db).
Proof.
  intros Hc Hinv c'. simpl. destruct (decide (c = c')) as [<-|Hne].
  - intros _. by apply Hinv.
  - rewrite lookup_insert_ne by done. apply Hinv.
Qed.

Lemma sessions_have_class_step k db :
  sessions_have_class db → sessions_have_class (step k db).
Proof.
  intros Hinv.
  destruct k as [id iso j t ti d| c b now | c m | c u | c u | c u | |];
    simpl; unfold after; try exact Hinv.
  - intros c'. simpl. intros Hc'%Hinv.
    destruct (decide (id = c')) as [<-|Hne].
    + rewrite lookup_insert_eq. eauto.
    + by rewrite lookup_insert_ne.
  - destruct (classes db !! c) as [k|] eqn:Hk.
    + rewrite (setClassLiveStatus_fb_class _ _ _ _ _ Hk). intros c'. simpl.
      destruct (decide (c = c')) as [<-|Hne].
      * rewrite lookup_insert_eq. eauto.
      * rewrite lookup_insert_ne by done. intros Hc'. apply Hinv.
        destruct b; [by rewrite lookup_insert_ne in Hc'
                    |by rewrite lookup_delete_ne in Hc'].
    + by rewrite (setClassLiveStatus_fb_noclass _ _ _ _ Hk).
  - destruct (sessions db !! c) as [ss|] eqn:Hss.
    + rewrite (updateStreamMode_live _ _ _ _ Hss). simpl.
      apply sessions_have_class_put; [by rewrite Hss|done].
    + by rewrite (updateStreamMode_absent _ _ _ Hss).
  - destruct (sessions db !! c) as [ss|] eqn:Hss.
    + rewrite (raiseHand_fb_live _ _ _ _ Hss). simpl.
      apply sessions_have_class_put; [by rewrite Hss|done].
    + by rewrite (proj1 (guarded_calls_absent c u db Hss)).
  - destruct (sessions db !! c) as [ss|] eqn:Hss.
    + rewrite (lowerHand_fb_live _ _ _ _ Hss). simpl.
      apply sessions_have_class_put; [by rewrite Hss|done].
    + by rewrite (proj1 (proj2 (guarded_calls_absent c u db Hss))).
  - destruct (sessions db !! c) as [ss|] eqn:Hss.
    + rewrite (allowSpeaker_fb_live _ _ _ _ Hss). simpl.
      apply sessions_have_class_put; [by rewrite Hss|done].
    + by rewrite (proj2 (proj2 (guarded_calls_absent c u db Hss))).
Qed.

Lemma reachable_sessions_have_class db :
  reachable db → sessions_have_class db.
Proof.
  induction 1 as [db Hempty|k db _ IH].
  - intros c. rewrite Hempty, lookup_empty. by intros [? ?].
  - by apply sessions_have_class_step.
Qed.

(** *** Calling twice *)

Lemma put_session_put_session c a b db :
  put_session c a (put_session c b db) = put_session c a db.
Proof. unfold put_session. simpl. by rewrite insert_insert_eq. Qed.

Lemma lookup_put_session c a db : sessions (put_session c a db) !! c = Some a.
Proof. simpl. by rewrite lookup_insert_eq. Qed.

Lemma raiseHand_fb_twice c u db :
  after (raiseHand c u) (after (raiseHand c u) db) = after (raiseHand c u) db.
Proof.
  unfold after. destruct (sessions db !! c) as [ss|] eqn:Hss.
  - rewrite (raiseHand_fb_live _ _ _ _ Hss). simpl.
    rewrite (raiseHand_fb_live _ _ _ _ (lookup_put_session _ _ _)). simpl.
    rewrite put_session_put_session.
    destruct (includes u (raisedHands ss)) eqn:E; [by rewrite E|].
    assert (includes u (raisedHands ss ++ [u]) = true) as ->; [|done].
    apply includes_true, elem_of_push. by right.
  - rewrite !(proj1 (guarded_calls_absent c u db Hss)). simpl.
    by rewrite (proj1 (guarded_calls_absent c u db Hss)).
Qed.

Lemma lowerHand_fb_twice c u db :
  after (lowerHand c u) (after (lowerHand c u) db) = after (lowerHand c u) db.
Proof.
  unfold after. destruct (sessions db !! c) as [ss|] eqn:Hss.
  - rewrite (lowerHand_fb_live _ _ _ _ Hss). simpl.
    rewrite (lowerHand_fb_live _ _ _ _ (lookup_put_session _ _ _)). simpl.
    by rewrite put_session_put_session, without_idemp.
  - rewrite !(proj1 (proj2 (guarded_calls_absent c u db Hss))). simpl.
    by rewrite (proj1 (proj2 (guarded_calls_absent c u db Hss))).
Qed.

(** *** Uniqueness of the ids in [raisedHands] *)

Lemma distinct_hands_put c ss' db :
  distinct_hands db → NoDup (raisedHands ss') →
  distinct_hands (put_session c ss' db).
Proof.
  intros Hinv Hh c' ss. simpl. destruct (decide (c = c')) as [<-|Hne].
  - rewrite lookup_insert_eq. by intros [= <-].
  - rewrite lookup_insert_ne by done. apply Hinv.
Qed.

Lemma distinct_hands_step k db : distinct_hands db → distinct_hands (step k db).
Proof.
  intros Hinv.
  destruct k as [id iso j t ti d| c b now | c m | c u | c u | c u | |];
    simpl; unfold after; try exact Hinv.
  - destruct (classes db !! c) as [k|] eqn:Hk.
    + rewrite (setClassLiveStatus_fb_class _ _ _ _ _ Hk). intros c' ss. simpl.
      destruct b.
      * destruct (decide (c = c')) as [<-|Hne].
        -- rewrite lookup_insert_eq. intros [= <-]. apply NoDup_nil_2.
        -- rewrite lookup_insert_ne by done. apply Hinv.
      * rewrite lookup_delete_Some. intros [_ Hss]. by apply (Hinv c').
    + by rewrite (setClassLiveStatus_fb_noclass _ _ _ _ Hk).
  - destruct (sessions db !! c) as [ss|] eqn:Hss.
    + rewrite (updateStreamMode_live _ _ _ _ Hss). simpl.
      apply distinct_hands_put; [done|]. apply (Hinv c ss Hss).
    + by rewrite (updateStreamMode_absent _ _ _ Hss).
  - destruct (sessions db !! c) as [ss|] eqn:Hss.
    + rewrite (raiseHand_fb_live _ _ _ _ Hss). simpl.
      apply distinct_hands_put; [done|]. simpl.
      destruct (includes u (raisedHands ss)) eqn:E; [apply (Hinv c ss Hss)|].
      apply NoDup_push; [apply (Hinv c ss Hss)|by apply includes_false].
    + by rewrite (proj1 (guarded_calls_absent c u db Hss)).
  - destruct (sessions db !! c) as [ss|] eqn:Hss.
    + rewrite (lowerHand_fb_live _ _ _ _ Hss). simpl.
      apply distinct_hands_put; [done|]. simpl.
      apply NoDup_without, (Hinv c ss Hss).
    + by rewrite (proj1 (proj2 (guarded_calls_absent c u db Hss))).
  - destruct (sessions db !! c) as [ss|] eqn:Hss.
    + rewrite (allowSpeaker_fb_live _ _ _ _ Hss). simpl.
      apply distinct_hands_put; [done|]. simpl.
      apply NoDup_without, (Hinv c ss Hss).
    + by rewrite (proj2 (proj2 (guarded_calls_absent c u db Hss))).
Qed.

Lemma reachable_distinct_hands db : reachable db → distinct_hands db.
Proof.
  induction 1 as [db Hempty|k db _ IH].
  - intros c ss. by rewrite Hempty, lookup_empty.
  - by apply distinct_hands_step.
Qed.

(** A call whose target is missing leaves the database as it was, whether
    it resolves or rejects. *)
Lemma calls_without_target_keep_db c db :
  (classes db !! c = None →
   ∀ b now, after (setClassLiveStatus c b now) db = db)
  ∧ (sessions db !! c = None →
     (∀ m, after (updateStreamMode c m) db = db)
     ∧ ∀ u, after (raiseHand c u) db = db ∧ after (lowerHand c u) db = db
            ∧ after (allowSpeaker c u) db = db).
Proof.
  unfold after. split.
  - intros Hno b now. by rewrite (setClassLiveStatus_fb_noclass _ _ _ _ Hno).
  - intros Hno. split.
    + intros m. by rewrite (updateStreamMode_absent _ _ _ Hno).
    + intros u. destruct (guarded_calls_absent c u db Hno) as (-> & -> & ->).
      done.
Qed.

Lemma same_elsewhere_put_session c ss' db :
  same_elsewhere c db (put_session c ss' db).
Proof.
  unfold same_elsewhere. simpl. split_and!; try done.
  intros c' Hne. by rewrite lookup_insert_ne.
Qed.

Lemma reachable_fb_run ks db : reachable db → reachable (run ks db).
Proof.
  revert db. induction ks as [|k ks IH]; intros db Hr; [done|].
  simpl. apply IH. by constructor.
Qed.

End FirebaseCalls.

(** ** The session of the specification's edge scenario

    start, raiseHand(A), raiseHand(B), allowSpeaker(A), lowerHand(B): just
    before the session ends nobody has a hand up and A is the one active
    speaker. *)

Example edge_scenario_mock :
  Mock.getLiveSessionState "class-1"
    (Mock.run [Mock.SetClassLiveStatus "class-1" true;
               Mock.RaiseHand "class-1" "A"; Mock.RaiseHand "class-1" "B";
               Mock.AllowSpeaker "class-1" "A"; Mock.LowerHand "class-1" "B"]
       (Mock.initial Scenario.boot))
  = Some (Mock.mkSession "class-1" true CAMERA [] ["A"]).
Proof. vm_compute. reflexivity. Qed.

Example edge_scenario_firebase :
  Firebase.sessionSnapshot "c1"
    (Firebase.run [Firebase.SetClassLiveStatus "c1" true 5;
                   Firebase.RaiseHand "c1" "A"; Firebase.RaiseHand "c1" "B";
                   Firebase.AllowSpeaker "c1" "A"; Firebase.LowerHand "c1" "B"]
       Scenario.fb_offline)
  = Some (Firebase.mkSession "c1" true CAMERA [] ["A"] 5).
Proof. vm_compute. reflexivity. Qed.

(** * The claims *)

(** C1.  In a live session, [allowSpeaker] leaves the user in
    [activeSpeakers] and out of [raisedHands], whether or not the hand was
    up before.  Both services do it in one transition: the in-memory one
    without a suspension point between the two updates, the Firestore one
    with a single [updateDoc] carrying both fields (and that call
    resolves). *)
Theorem allowSpeaker_grants_floor (c u : string) :
  (∀ s ss, Mock.getLiveSessionState c s = Some ss →
     ∃ ss', Mock.getLiveSessionState c (Mock.allowSpeaker c u s) = Some ss'
            ∧ u ∈ Mock.activeSpeakers ss' ∧ u ∉ Mock.raisedHands ss')
  ∧
  (∀ db ss, Firebase.sessionSnapshot c db = Some ss →
     Firebase.resolves (Firebase.allowSpeaker c u) db = true
     ∧ ∃ ss', Firebase.sessionSnapshot c
                (Firebase.after (Firebase.allowSpeaker c u) db) = Some ss'
              ∧ u ∈ Firebase.activeSpeakers ss'
              ∧ u ∉ Firebase.raisedHands ss').
Proof.
  split.
  - intros s ss Hss. unfold Mock.getLiveSessionState in *.
    rewrite (allowSpeaker_live _ _ _ _ Hss). simpl.
    rewrite lookup_insert_eq. eexists. split; [done|]. simpl. split.
    + destruct (includes u (Mock.activeSpeakers ss)) eqn:E.
      * by apply includes_true.
      * apply elem_of_push. by right.
    + apply not_elem_of_without.
  - intros db ss Hss. unfold Firebase.sessionSnapshot, Firebase.resolves,
      Firebase.after in *.
    rewrite (allowSpeaker_fb_live _ _ _ _ Hss). simpl. split; [done|].
    rewrite lookup_insert_eq. eexists. split; [done|]. simpl. split.
    + apply elem_of_push. by right.
    + apply not_elem_of_without.
Qed.

Lemma allowSpeaker_grants_floor_witness :
  (∃ ss', Mock.getLiveSessionState "class-1"
            (Mock.allowSpeaker "class-1" "student-7" Scenario.mock_hands_up)
          = Some ss'
          ∧ "student-7" ∈ Mock.activeSpeakers ss'
          ∧ "student-7" ∉ Mock.raisedHands ss')
  ∧
  (Firebase.resolves (Firebase.allowSpeaker "c1" "student-7")
     Scenario.fb_hands_up = true
   ∧ ∃ ss', Firebase.sessionSnapshot "c1"
              (Firebase.after (Firebase.allowSpeaker "c1" "student-7")
                 Scenario.fb_hands_up) = Some ss'
            ∧ "student-7" ∈ Firebase.activeSpeakers ss'
            ∧ "student-7" ∉ Firebase.raisedHands ss').
Proof.
  split.
  - apply (proj1 (allowSpeaker_grants_floor "class-1" "student-7")
             Scenario.mock_hands_up
             (Mock.mkSession "class-1" true CAMERA
                ["student-7"; "student-9"] [])).
    vm_compute. reflexivity.
  - apply (proj2 (allowSpeaker_grants_floor "c1" "student-7")
             Scenario.fb_hands_up
             (Firebase.mkSession "c1" true CAMERA ["student-7"] [] 5)).
    vm_compute. reflexivity.
Defined.

(** C2 (as amended).  For every class id that has a class record, and any
    prior contents of the store, starting a session and then reading the
    session state gives a record with mode [CAMERA] and empty
    [raisedHands] and [activeSpeakers]; whatever an earlier session of
    that class had accumulated is gone.  The Firestore call resolves and
    stamps the record with the time of the call. *)
Theorem startSession_gives_fresh_record (c : string) :
  (∀ s, is_Some (Mock.getClass c s) →
     Mock.getLiveSessionState c (Mock.setClassLiveStatus c true s)
     = Some (Mock.mkSession c true CAMERA [] []))
  ∧
  (∀ db now, is_Some (Firebase.classes db !! c) →
     Firebase.resolves (Firebase.setClassLiveStatus c true now) db = true
     ∧ Firebase.sessionSnapshot c
         (Firebase.after (Firebase.setClassLiveStatus c true now) db)
       = Some (Firebase.mkSession c true CAMERA [] [] now)).
Proof.
  split.
  - intros s [k Hk]. unfold Mock.getClass in Hk.
    unfold Mock.getLiveSessionState, Mock.setClassLiveStatus. rewrite Hk.
    simpl. by rewrite lookup_insert_eq.
  - intros db now [k Hk].
    unfold Firebase.resolves, Firebase.after, Firebase.sessionSnapshot.
    rewrite (setClassLiveStatus_fb_class _ _ _ _ _ Hk). simpl.
    by rewrite lookup_insert_eq.
Qed.

Lemma startSession_gives_fresh_record_witness :
  Mock.getLiveSessionState "class-1"
    (Mock.setClassLiveStatus "class-1" true Scenario.mock_hands_up)
  = Some (Mock.mkSession "class-1" true CAMERA [] [])
  ∧
  (Firebase.resolves (Firebase.setClassLiveStatus "c1" true 9)
     Scenario.fb_hands_up = true
   ∧ Firebase.sessionSnapshot "c1"
       (Firebase.after (Firebase.setClassLiveStatus "c1" true 9)
          Scenario.fb_hands_up)
     = Some (Firebase.mkSession "c1" true CAMERA [] [] 9)).
Proof.
  split.
  - apply (proj1 (startSession_gives_fresh_record "class-1")
             Scenario.mock_hands_up).
    vm_compute. eexists. reflexivity.
  - apply (proj2 (startSession_gives_fresh_record "c1")
             Scenario.fb_hands_up 9%N).
    vm_compute. eexists. reflexivity.
Defined.

(** C2 as stated fails for a class id without a class record:
    [setClassLiveStatus] finds no class, skips its body and creates
    nothing, so the session state read next is absent. *)
Lemma startSession_unknown_class_absent :
  Mock.getClass "class-404" (Mock.initial Scenario.boot) = None
  ∧ Mock.getLiveSessionState "class-404"
      (Mock.setClassLiveStatus "class-404" true (Mock.initial Scenario.boot))
    = None.
Proof. split; vm_compute; reflexivity. Qed.

(** C3.  Ending the session of a class deletes its session record: on any
    store that holds the class, whatever session it has, the session state
    read next is absent, and the Firestore call resolves.  For a class id
    without a class record the call changes nothing (the Firestore one
    rejects with not-found), and in every state the services can reach
    there is no session for such an id either, so there too the session
    state read next is absent.  Ending again is a no-op: the in-memory
    call returns the same store, and the Firestore call on an existing
    class resolves a second time on an unchanged database. *)
Theorem endSession_leaves_no_record (c : string) :
  (∀ s, is_Some (Mock.getClass c s) →
     Mock.getLiveSessionState c (Mock.setClassLiveStatus c false s) = None)
  ∧ (∀ s, Mock.reachable s →
       Mock.getLiveSessionState c (Mock.setClassLiveStatus c false s) = None)
  ∧ (∀ s, Mock.setClassLiveStatus c false (Mock.setClassLiveStatus c false s)
          = Mock.setClassLiveStatus c false s)
  ∧ (∀ db now, is_Some (Firebase.classes db !! c) →
       Firebase.resolves (Firebase.setClassLiveStatus c false now) db = true
       ∧ Firebase.sessionSnapshot c
           (Firebase.after (Firebase.setClassLiveStatus c false now) db)
         = None)
  ∧ (∀ db now, Firebase.classes db !! c = None →
       Firebase.setClassLiveStatus c false now db
       = (db, Firebase.Rejected Firebase.NotFound))
  ∧ (∀ db now, Firebase.reachable db →
       Firebase.sessionSnapshot c
         (Firebase.after (Firebase.setClassLiveStatus c false now) db) = None)
  ∧ (∀ db now now', is_Some (Firebase.classes db !! c) →
       let db' := Firebase.after (Firebase.setClassLiveStatus c false now) db in
       Firebase.setClassLiveStatus c false now' db' = (db', Firebase.Ok tt))
  ∧ (∀ db now now',
       Firebase.resolves (Firebase.setClassLiveStatus c false now) db = true →
       let db' := Firebase.after (Firebase.setClassLiveStatus c false now) db in
       Firebase.setClassLiveStatus c false now' db' = (db', Firebase.Ok tt)).
Proof.
  assert (∀ db now now' k, Firebase.classes db !! c = Some k →
            let db' :=
              Firebase.after (Firebase.setClassLiveStatus c false now) db in
            Firebase.setClassLiveStatus c false now' db'
            = (db', Firebase.Ok tt)) as Hagain.
  { intros db now now' k Hk. unfold Firebase.after.
    rewrite (setClassLiveStatus_fb_class _ _ _ _ _ Hk). simpl.
    rewrite (setClassLiveStatus_fb_class _ _ _ _
               (Firebase.set_c_isLive false k))
      by (simpl; by rewrite lookup_insert_eq).
    simpl. by rewrite insert_insert_eq, delete_delete_eq. }
  split_and!.
  - intros s [k Hk]. unfold Mock.getClass in Hk.
    unfold Mock.getLiveSessionState, Mock.setClassLiveStatus. rewrite Hk.
    simpl. by rewrite lookup_delete_eq.
  - intros s Hr. unfold Mock.getLiveSessionState, Mock.setClassLiveStatus.
    destruct (Mock.find_class c (Mock.classes s)) as [k|] eqn:Hk; simpl.
    + by rewrite lookup_delete_eq.
    + destruct (Mock.LIVE_SESSIONS s !! c) as [ss|] eqn:Hss; [|done].
      destruct (reachable_session_has_class s c Hr) as [k' Hk'];
        [by rewrite Hss|].
      unfold Mock.getClass in Hk'. congruence.
  - intros s. unfold Mock.setClassLiveStatus.
    destruct (Mock.find_class c (Mock.classes s)) as [k|] eqn:Hk;
      [|by rewrite Hk].
    simpl. rewrite find_class_assign, Hk, bool_decide_eq_true_2 by done.
    simpl. apply store_eq; simpl; try done.
    + clear Hk. induction (Mock.classes s) as [|k' cs IH]; simpl; [done|].
      destruct (bool_decide (Mock.c_id k' = c)) eqn:E; simpl; rewrite E.
      * done.
      * by rewrite IH.
    + by rewrite delete_delete_eq.
  - intros db now [k Hk].
    unfold Firebase.resolves, Firebase.sessionSnapshot, Firebase.after.
    rewrite (setClassLiveStatus_fb_class _ _ _ _ _ Hk). simpl.
    by rewrite lookup_delete_eq.
  - intros db now Hno. by apply setClassLiveStatus_fb_noclass.
  - intros db now Hr. unfold Firebase.sessionSnapshot, Firebase.after.
    destruct (Firebase.classes db !! c) as [k|] eqn:Hk.
    + rewrite (setClassLiveStatus_fb_class _ _ _ _ _ Hk). simpl.
      by rewrite lookup_delete_eq.
    + rewrite (setClassLiveStatus_fb_noclass _ _ _ _ Hk). simpl.
      destruct (Firebase.sessions db !! c) as [ss|] eqn:Hss; [|done].
      destruct (reachable_sessions_have_class db Hr c) as [k' Hk'];
        [by rewrite Hss|]. congruence.
  - intros db now now' [k Hk]. by apply (Hagain db now now' k).
  - intros db now now'. unfold Firebase.resolves.
    destruct (Firebase.classes db !! c) as [k|] eqn:Hk.
    + intros _. by apply (Hagain db now now' k).
    + by rewrite (setClassLiveStatus_fb_noclass _ _ _ _ Hk).
Qed.

Lemma endSession_leaves_no_record_witness :
  (Mock.getLiveSessionState "class-1" Scenario.mock_hands_up
   = Some (Mock.mkSession "class-1" true CAMERA
             ["student-7"; "student-9"] [])
   ∧ Mock.getLiveSessionState "class-1"
       (Mock.setClassLiveStatus "class-1" false Scenario.mock_hands_up)
     = None)
  ∧ (Firebase.sessionSnapshot "c1" Scenario.fb_hands_up
     = Some (Firebase.mkSession "c1" true CAMERA ["student-7"] [] 5)
     ∧ Firebase.resolves (Firebase.setClassLiveStatus "c1" false 9)
         Scenario.fb_hands_up = true
     ∧ Firebase.sessionSnapshot "c1"
         (Firebase.after (Firebase.setClassLiveStatus "c1" false 9)
            Scenario.fb_hands_up) = None)
  ∧ Mock.getLiveSessionState "class-404"
      (Mock.setClassLiveStatus "class-404" false Scenario.mock_hands_up)
    = None
  ∧ Firebase.setClassLiveStatus "class-404" false 9 Scenario.fb_hands_up
    = (Scenario.fb_hands_up, Firebase.Rejected Firebase.NotFound)
  ∧ Firebase.sessionSnapshot "class-404"
      (Firebase.after (Firebase.setClassLiveStatus "class-404" false 9)
         Scenario.fb_hands_up) = None
  ∧ (let db' := Firebase.after (Firebase.setClassLiveStatus "c1" false 9)
                  Scenario.fb_hands_up in
     Firebase.setClassLiveStatus "c1" false 11 db' = (db', Firebase.Ok tt)).
Proof.
  pose proof (endSession_leaves_no_record "class-1")
    as (Hmock & _ & _ & _ & _ & _ & _ & _).
  pose proof (endSession_leaves_no_record "c1")
    as (_ & _ & _ & Hfb & _ & _ & Hagain & _).
  pose proof (endSession_leaves_no_record "class-404")
    as (_ & Hmock_reach & _ & _ & Hfb_none & Hfb_reach & _ & _).
  assert (Mock.reachable Scenario.mock_hands_up) as Hmr.
  { unfold Scenario.mock_hands_up, Mock.run. cbn [fold_left].
    do 3 apply Mock.reach_step. apply Mock.reach_initial. }
  assert (Firebase.reachable Scenario.fb_hands_up) as Hfr.
  { unfold Scenario.fb_hands_up, Firebase.run. cbn [fold_left].
    do 3 apply Firebase.reach_step. apply Firebase.reach_initial.
    reflexivity. }
  split_and!.
  - vm_compute. reflexivity.
  - apply Hmock. vm_compute. eexists. reflexivity.
  - vm_compute. reflexivity.
  - apply Hfb. vm_compute. eexists. reflexivity.
  - apply Hfb. vm_compute. eexists. reflexivity.
  - apply Hmock_reach, Hmr.
  - apply Hfb_none. vm_compute. reflexivity.
  - apply Hfb_reach, Hfr.
  - apply Hagain. vm_compute. eexists. reflexivity.
Defined.

(** C4.  Calling [raiseHand], [lowerHand], [allowSpeaker] or [muteSpeaker]
    a second time with the same arguments changes nothing.  For the
    in-memory service and for the Firestore [raiseHand] and [lowerHand]
    the whole store is the same after two calls as after one.  For the
    Firestore [allowSpeaker] on a live session the two results hold the
    same set of active speakers and the same raised hands, and agree
    everywhere else (the service has no [muteSpeaker]). *)
Theorem membership_calls_idempotent (c u : string) :
  (∀ s, Mock.raiseHand c u (Mock.raiseHand c u s) = Mock.raiseHand c u s)
  ∧ (∀ s, Mock.lowerHand c u (Mock.lowerHand c u s) = Mock.lowerHand c u s)
  ∧ (∀ s, Mock.allowSpeaker c u (Mock.allowSpeaker c u s)
          = Mock.allowSpeaker c u s)
  ∧ (∀ s, Mock.muteSpeaker c u (Mock.muteSpeaker c u s)
          = Mock.muteSpeaker c u s)
  ∧ (∀ db, Firebase.after (Firebase.raiseHand c u)
             (Firebase.after (Firebase.raiseHand c u) db)
           = Firebase.after (Firebase.raiseHand c u) db)
  ∧ (∀ db, Firebase.after (Firebase.lowerHand c u)
             (Firebase.after (Firebase.lowerHand c u) db)
           = Firebase.after (Firebase.lowerHand c u) db)
  ∧ (∀ db ss, Firebase.sessionSnapshot c db = Some ss →
       let once := Firebase.after (Firebase.allowSpeaker c u) db in
       let twice := Firebase.after (Firebase.allowSpeaker c u) once in
       ∃ ss1 ss2,
         Firebase.sessionSnapshot c once = Some ss1
         ∧ Firebase.sessionSnapshot c twice = Some ss2
         ∧ list_to_set (Firebase.activeSpeakers ss2)
           =@{gset string} list_to_set (Firebase.activeSpeakers ss1)
         ∧ Firebase.raisedHands ss2 = Firebase.raisedHands ss1
         ∧ Firebase.mode ss2 = Firebase.mode ss1
         ∧ Firebase.same_elsewhere c once twice).
Proof.
  split_and!.
  - apply raiseHand_twice.
  - apply lowerHand_twice.
  - apply allowSpeaker_twice.
  - apply muteSpeaker_twice.
  - apply raiseHand_fb_twice.
  - apply lowerHand_fb_twice.
  - intros db ss Hss. unfold Firebase.sessionSnapshot, Firebase.after in *.
    simpl. rewrite (allowSpeaker_fb_live _ _ _ _ Hss). simpl.
    rewrite (allowSpeaker_fb_live _ _ _ _ (lookup_put_session _ _ _)). simpl.
    rewrite !lookup_insert_eq. do 2 eexists. split_and!; try done; simpl.
    + rewrite (list_to_set_app_L (_ ++ [u]) [u]), (list_to_set_app_L _ [u]).
      by rewrite <-(assoc_L (∪)), (idemp_L (∪)).
    + by rewrite without_idemp.
    + unfold Firebase.same_elsewhere. simpl. split_and!; try done.
      intros c' Hne. by rewrite !lookup_insert_ne.
Qed.

Lemma membership_calls_idempotent_witness :
  let once := Firebase.after (Firebase.allowSpeaker "c1" "student-7")
                Scenario.fb_hands_up in
  let twice := Firebase.after (Firebase.allowSpeaker "c1" "student-7") once in
  ∃ ss1 ss2,
    Firebase.sessionSnapshot "c1" once = Some ss1
    ∧ Firebase.sessionSnapshot "c1" twice = Some ss2
    ∧ list_to_set (Firebase.activeSpeakers ss2)
      =@{gset string} list_to_set (Firebase.activeSpeakers ss1)
    ∧ Firebase.raisedHands ss2 = Firebase.raisedHands ss1
    ∧ Firebase.mode ss2 = Firebase.mode ss1
    ∧ Firebase.same_elsewhere "c1" once twice.
Proof.
  pose proof (membership_calls_idempotent "c1" "student-7")
    as (_ & _ & _ & _ & _ & _ & Hallow).
  apply (Hallow Scenario.fb_hands_up
           (Firebase.mkSession "c1" true CAMERA ["student-7"] [] 5)).
  vm_compute. reflexivity.
Defined.

(** C5.  For the in-memory service, every call keeps the invariant that a
    session record exists for a class id exactly when the class resolved
    for that id has [isLive] set; it holds when the module is loaded, so
    it holds in every reachable store. *)
Theorem live_flag_matches_session_record :
  (∀ k s, Mock.live_iff_session s → Mock.live_iff_session (Mock.step k s))
  ∧ (∀ s, Mock.reachable s → Mock.live_iff_session s).
Proof.
  split.
  - apply live_iff_session_step.
  - apply reachable_live_iff_session.
Qed.

Lemma live_flag_matches_session_record_witness :
  Mock.live_iff_session Scenario.mock_hands_up
  ∧ Mock.live_iff_session
      (Mock.step (Mock.SetClassLiveStatus "class-1" false)
         Scenario.mock_hands_up).
Proof.
  pose proof live_flag_matches_session_record as [Hstep Hreach].
  assert (Mock.live_iff_session Scenario.mock_hands_up) as Hinv.
  { apply Hreach. unfold Scenario.mock_hands_up, Mock.run. cbn [fold_left].
    do 3 apply Mock.reach_step. apply Mock.reach_initial. }
  split; [exact Hinv|]. apply Hstep, Hinv.
Defined.

(** C6 on the Firestore service.  [allowSpeaker] appends the user id
    without looking whether it is already there: a student who is allowed
    to speak, raises the hand again and is allowed again is listed twice in
    [activeSpeakers]. *)
Theorem allowSpeaker_fb_lists_speaker_twice :
  ∃ ss, Firebase.sessionSnapshot "c1"
          (Firebase.run Scenario.allowed_twice Scenario.fb_offline) = Some ss
        ∧ Firebase.activeSpeakers ss = ["student-7"; "student-7"]
        ∧ ¬ NoDup (Firebase.activeSpeakers ss).
Proof.
  eexists. split; [vm_compute; reflexivity|]. simpl. split; [done|].
  intros Hnd. apply NoDup_cons in Hnd as [Hnotin _].
  apply Hnotin, list_elem_of_singleton. done.
Qed.

(** C7 on the Firestore service.  [updateStreamMode] and
    [setClassLiveStatus] call [updateDoc] without looking whether the
    document exists, so on a class without a session document, and on a
    class id without a class document, they reject with not-found; the
    database stays as it was. *)
Theorem fb_unguarded_calls_reject :
  Firebase.updateStreamMode "c1" SCREEN Scenario.fb_offline
  = (Scenario.fb_offline, Firebase.Rejected Firebase.NotFound)
  ∧ Firebase.setClassLiveStatus "class-404" true 9 Scenario.fb_offline
    = (Scenario.fb_offline, Firebase.Rejected Firebase.NotFound).
Proof.
  split.
  - by apply updateStreamMode_absent.
  - by apply setClassLiveStatus_fb_noclass.
Qed.

(** C8.  On a live session each call changes its own field of the session
    record and nothing else in the store: [updateStreamMode] sets [mode];
    [raiseHand] and [lowerHand] change [raisedHands] only; [muteSpeaker]
    takes the user out of [activeSpeakers], keeps the other speakers and
    leaves [raisedHands], [classId], [isLive] and [mode] as they were.  The
    Firestore [updateStreamMode], [raiseHand] and [lowerHand] resolve and
    also keep [started_at]. *)
Theorem session_calls_frame (c : string) :
  (∀ s ss, Mock.getLiveSessionState c s = Some ss →
     (∀ m, ∃ ss',
        Mock.getLiveSessionState c (Mock.updateStreamMode c m s) = Some ss'
        ∧ Mock.mode ss' = m ∧ Mock.same_but_mode ss ss'
        ∧ Mock.same_elsewhere c s (Mock.updateStreamMode c m s))
     ∧ (∀ u, ∃ ss',
          Mock.getLiveSessionState c (Mock.raiseHand c u s) = Some ss'
          ∧ Mock.same_but_raisedHands ss ss'
          ∧ Mock.same_elsewhere c s (Mock.raiseHand c u s))
     ∧ (∀ u, ∃ ss',
          Mock.getLiveSessionState c (Mock.lowerHand c u s) = Some ss'
          ∧ Mock.same_but_raisedHands ss ss'
          ∧ Mock.same_elsewhere c s (Mock.lowerHand c u s))
     ∧ (∀ u, ∃ ss',
          Mock.getLiveSessionState c (Mock.muteSpeaker c u s) = Some ss'
          ∧ (u ∉ Mock.activeSpeakers ss')
          ∧ (∀ v, v ≠ u →
               (v ∈ Mock.activeSpeakers ss' ↔ v ∈ Mock.activeSpeakers ss))
          ∧ Mock.same_but_activeSpeakers ss ss'
          ∧ Mock.same_elsewhere c s (Mock.muteSpeaker c u s)))
  ∧
  (∀ db ss, Firebase.sessionSnapshot c db = Some ss →
     (∀ m, Firebase.resolves (Firebase.updateStreamMode c m) db = true
           ∧ ∃ ss',
               Firebase.sessionSnapshot c
                 (Firebase.after (Firebase.updateStreamMode c m) db) = Some ss'
               ∧ Firebase.mode ss' = m ∧ Firebase.same_but_mode ss ss'
               ∧ Firebase.same_elsewhere c db
                   (Firebase.after (Firebase.updateStreamMode c m) db))
     ∧ (∀ u, Firebase.resolves (Firebase.raiseHand c u) db = true
             ∧ ∃ ss',
                 Firebase.sessionSnapshot c
                   (Firebase.after (Firebase.raiseHand c u) db) = Some ss'
                 ∧ Firebase.same_but_raisedHands ss ss'
                 ∧ Firebase.same_elsewhere c db
                     (Firebase.after (Firebase.raiseHand c u) db))
     ∧ (∀ u, Firebase.resolves (Firebase.lowerHand c u) db = true
             ∧ ∃ ss',
                 Firebase.sessionSnapshot c
                   (Firebase.after (Firebase.lowerHand c u) db) = Some ss'
                 ∧ Firebase.same_but_raisedHands ss ss'
                 ∧ Firebase.same_elsewhere c db
                     (Firebase.after (Firebase.lowerHand c u) db))).
Proof.
  split.
  - intros s ss Hss. unfold Mock.getLiveSessionState in *. split_and!.
    + intros m. rewrite (updateStreamMode_mock_live _ _ _ _ Hss).
      rewrite lookup_put. eexists. split_and!; [done|done|by repeat split|].
      apply same_elsewhere_put.
    + intros u. rewrite (raiseHand_live _ _ _ _ Hss).
      rewrite lookup_put. eexists. split_and!; [done|by repeat split|].
      apply same_elsewhere_put.
    + intros u. rewrite (lowerHand_live _ _ _ _ Hss).
      rewrite lookup_put. eexists. split_and!; [done|by repeat split|].
      apply same_elsewhere_put.
    + intros u. rewrite (muteSpeaker_live _ _ _ _ Hss).
      rewrite lookup_put. eexists. split_and!; [done| | |by repeat split|].
      * apply not_elem_of_without.
      * intros v Hv. simpl. rewrite elem_of_without. tauto.
      * apply same_elsewhere_put.
  - intros db ss Hss.
    unfold Firebase.sessionSnapshot, Firebase.resolves, Firebase.after in *.
    split_and!.
    + intros m. rewrite (updateStreamMode_live _ _ _ _ Hss). simpl.
      split; [done|]. rewrite lookup_insert_eq. eexists.
      split_and!; [done|done|by repeat split|].
      apply same_elsewhere_put_session.
    + intros u. rewrite (raiseHand_fb_live _ _ _ _ Hss). simpl.
      split; [done|]. rewrite lookup_insert_eq. eexists.
      split_and!; [done|by repeat split|].
      apply same_elsewhere_put_session.
    + intros u. rewrite (lowerHand_fb_live _ _ _ _ Hss). simpl.
      split; [done|]. rewrite lookup_insert_eq. eexists.
      split_and!; [done|by repeat split|].
      apply same_elsewhere_put_session.
Qed.

Lemma session_calls_frame_witness :
  (∃ ss', Mock.getLiveSessionState "class-1"
            (Mock.updateStreamMode "class-1" WHITEBOARD Scenario.mock_hands_up)
          = Some ss'
          ∧ Mock.mode ss' = WHITEBOARD
          ∧ Mock.raisedHands ss' = ["student-7"; "student-9"])
  ∧ (∃ ss', Firebase.sessionSnapshot "c1"
              (Firebase.after (Firebase.lowerHand "c1" "student-7")
                 Scenario.fb_hands_up) = Some ss'
            ∧ Firebase.mode ss' = CAMERA ∧ Firebase.started_at ss' = 5%N).
Proof.
  pose proof (session_calls_frame "class-1") as [Hmock _].
  pose proof (session_calls_frame "c1") as [_ Hfb].
  split.
  - destruct (Hmock Scenario.mock_hands_up
                (Mock.mkSession "class-1" true CAMERA
                   ["student-7"; "student-9"] []))
      as (Hmode & _); [vm_compute; reflexivity|].
    destruct (Hmode WHITEBOARD) as (ss' & Hget & Hm & (_ & _ & Hh & _) & _).
    exists ss'. split_and!; [exact Hget|exact Hm|exact Hh].
  - destruct (Hfb Scenario.fb_hands_up
                (Firebase.mkSession "c1" true CAMERA ["student-7"] [] 5))
      as (_ & _ & Hlower); [vm_compute; reflexivity|].
    destruct (Hlower "student-7")
      as (_ & ss' & Hget & (_ & _ & Hm & _ & Hat) & _).
    exists ss'. split_and!; [exact Hget|exact Hm|exact Hat].
Defined.

(** C9.  Starting a session on a class that is live already is accepted: the
    session record is replaced by a fresh one (mode [CAMERA], no raised
    hands, no active speakers), whatever the old record held. *)
Theorem startSession_while_live_resets (c : string) :
  (∀ s ss, Mock.reachable s → Mock.getLiveSessionState c s = Some ss →
     Mock.getLiveSessionState c (Mock.setClassLiveStatus c true s)
     = Some (Mock.mkSession c true CAMERA [] []))
  ∧
  (∀ db ss now, Firebase.reachable db →
     Firebase.sessionSnapshot c db = Some ss →
     Firebase.resolves (Firebase.setClassLiveStatus c true now) db = true
     ∧ Firebase.sessionSnapshot c
         (Firebase.after (Firebase.setClassLiveStatus c true now) db)
       = Some (Firebase.mkSession c true CAMERA [] [] now)).
Proof.
  split.
  - intros s ss Hr Hss. unfold Mock.getLiveSessionState in *.
    destruct (reachable_session_has_class s c Hr) as [k Hk];
      [by rewrite Hss|].
    unfold Mock.getClass in Hk. unfold Mock.setClassLiveStatus. rewrite Hk.
    simpl. by rewrite lookup_insert_eq.
  - intros db ss now Hr Hss.
    unfold Firebase.sessionSnapshot, Firebase.resolves, Firebase.after in *.
    destruct (reachable_sessions_have_class db Hr c) as [k Hk];
      [by rewrite Hss|].
    rewrite (setClassLiveStatus_fb_class _ _ _ _ _ Hk). simpl.
    by rewrite lookup_insert_eq.
Qed.

Lemma startSession_while_live_resets_witness :
  Mock.getLiveSessionState "class-1"
    (Mock.setClassLiveStatus "class-1" true Scenario.mock_hands_up)
  = Some (Mock.mkSession "class-1" true CAMERA [] [])
  ∧ Firebase.sessionSnapshot "c1"
      (Firebase.after (Firebase.setClassLiveStatus "c1" true 9)
         Scenario.fb_hands_up)
    = Some (Firebase.mkSession "c1" true CAMERA [] [] 9).
Proof.
  pose proof (startSession_while_live_resets "class-1") as [Hmock _].
  pose proof (startSession_while_live_resets "c1") as [_ Hfb].
  split.
  - apply (Hmock Scenario.mock_hands_up
             (Mock.mkSession "class-1" true CAMERA
                ["student-7"; "student-9"] [])).
    + unfold Scenario.mock_hands_up, Mock.run. cbn [fold_left].
      do 3 apply Mock.reach_step. apply Mock.reach_initial.
    + vm_compute. reflexivity.
  - apply (Hfb Scenario.fb_hands_up
             (Firebase.mkSession "c1" true CAMERA ["student-7"] [] 5) 9%N).
    + unfold Scenario.fb_hands_up, Firebase.run. cbn [fold_left].
      do 3 apply Firebase.reach_step. apply Firebase.reach_initial.
      reflexivity.
    + vm_compute. reflexivity.
Defined.

(** ** The analytics rows *)

Section Analytics.

Lemma omap_Forall2 {A B} (f : A → option B) (l : list A) :
  Forall2 (λ x y, f x = Some y) (filter (λ x, is_Some (f x)) l) (omap f l).
Proof.
  induction l as [|x l IH]; simpl; [constructor|].
  destruct (f x) as [y|] eqn:Hfx.
  - rewrite filter_cons_True by (rewrite Hfx; eauto). by constructor.
  - rewrite filter_cons_False; [done|]. rewrite Hfx. by intros [? ?].
Qed.

Lemma omap_filter_Forall2 {A B} (f : A → option B) (P : A → Prop)
  `{!∀ x, Decision (P x)} (l : list A) :
  Forall2 (λ x y, P x ∧ f x = Some y)
    (filter (λ x, P x ∧ is_Some (f x)) l) (omap f (filter P l)).
Proof.
  induction l as [|x l IH]; [constructor|].
  destruct (decide (P x)) as [HP|HP].
  - rewrite (filter_cons_True P) by done. simpl.
    destruct (f x) as [y|] eqn:Hfx.
    + rewrite filter_cons_True by (rewrite Hfx; eauto). by constructor.
    + rewrite filter_cons_False; [done|]. rewrite Hfx. by intros [_ [? ?]].
  - rewrite (filter_cons_False P) by done.
    rewrite filter_cons_False; [done|]. tauto.
Qed.

Lemma Forall2_impl_elem_of {A B} (R R' : A → B → Prop) (l : list A)
  (k : list B) :
  Forall2 R l k → (∀ x y, x ∈ l → R x y → R' x y) → Forall2 R' l k.
Proof.
  induction 1 as [|x y l k Hxy _ IH]; intros Himpl; constructor.
  - apply Himpl; [apply list_elem_of_here|done].
  - apply IH. intros x' y' Hin. apply Himpl. by apply list_elem_of_further.
Qed.

Lemma find_user_id id us u : Mock.find_user id us = Some u → Mock.u_id u = id.
Proof.
  induction us as [|u' us IH]; simpl; [done|].
  case_bool_decide as Hid; [|done]. by intros [= <-].
Qed.

Lemma analytics_loop_spec docs stats db :
  Firebase.analytics_loop docs stats db =
    (db, Firebase.Ok
           (stats ++ map Firebase.stats_row
                       (omap (λ kd, Firebase.users db
                                    !! Firebase.e_student_id kd.2) docs))).
Proof.
  revert stats. induction docs as [|kd docs IH]; intros stats; simpl.
  - unfold Firebase.ret. by rewrite app_nil_r.
  - unfold mbind, Firebase.Fire_bind, Firebase.bind, Firebase.getDoc. simpl.
    destruct (Firebase.users db !! Firebase.e_student_id kd.2) as [u|];
      rewrite IH; [|done].
    simpl. by rewrite <-app_assoc.
Qed.

Lemma getClassAnalytics_fb_spec c db :
  Firebase.getClassAnalytics c db =
    (db, Firebase.Ok
           (map Firebase.stats_row
              (omap (λ kd, Firebase.users db !! Firebase.e_student_id kd.2)
                 (Firebase.classEnrollmentDocs c db)))).
Proof.
  unfold Firebase.getClassAnalytics, mbind, Firebase.Fire_bind,
    Firebase.bind, Firebase.getDocs_where. simpl.
  by rewrite analytics_loop_spec.
Qed.

(** The query snapshot lists the enrollment documents of the class, each
    once. *)
Lemma classEnrollmentDocs_spec c db k e :
  (k, e) ∈ Firebase.classEnrollmentDocs c db
  ↔ Firebase.enrollments db !! k = Some e ∧ Firebase.e_class_id e = c.
Proof.
  unfold Firebase.classEnrollmentDocs.
  rewrite list_elem_of_filter, elem_of_map_to_list, bool_decide_eq_true.
  simpl. tauto.
Qed.

Lemma classEnrollmentDocs_NoDup c db :
  NoDup (Firebase.classEnrollmentDocs c db).*1.
Proof.
  unfold Firebase.classEnrollmentDocs.
  apply (sublist_NoDup _ ((map_to_list (Firebase.enrollments db)).*1)).
  - apply NoDup_fst_map_to_list.
  - apply fmap_sublist, sublist_filter.
Qed.

End Analytics.

(** C10.  [getClassAnalytics] returns one row for each enrollment whose
    class id is the class asked for and whose student id resolves to a
    profile, in the order of the enrollments, carrying that profile's id
    and name; enrollments of other classes and enrollments without a
    profile give no row and no error.  Score and attendance are functions
    of the row's id alone, and the rows depend on nothing but the
    enrollments and the profiles: two stores that agree on those give the
    same rows.  The Firestore call resolves and leaves the database as it
    was. *)
Theorem getClassAnalytics_rows :
  (∀ c s,
     Forall2
       (λ e r, Mock.e_class_id e = c
               ∧ ∃ u, Mock.getUserById (Mock.e_student_id e) s = Some u
                      ∧ Mock.a_id r = Mock.e_student_id e
                      ∧ Mock.a_name r = Mock.u_name u)
       (filter (λ e, Mock.e_class_id e = c
                     ∧ is_Some (Mock.getUserById (Mock.e_student_id e) s))
          (Mock.enrollments s))
       (Mock.getClassAnalytics c s))
  ∧ (∃ f g : string → Z, ∀ c s r,
       r ∈ Mock.getClassAnalytics c s →
       Mock.score r = f (Mock.a_id r) ∧ Mock.attendance r = g (Mock.a_id r))
  ∧ (∀ c s1 s2,
       Mock.users s1 = Mock.users s2 →
       Mock.enrollments s1 = Mock.enrollments s2 →
       Mock.getClassAnalytics c s1 = Mock.getClassAnalytics c s2)
  ∧ (∀ c db, ∃ rows,
       Firebase.getClassAnalytics c db = (db, Firebase.Ok rows)
       ∧ Forall2
           (λ kd r, Firebase.e_class_id kd.2 = c
                    ∧ Firebase.enrollments db !! kd.1 = Some kd.2
                    ∧ ∃ u, Firebase.users db !! Firebase.e_student_id kd.2
                           = Some u
                           ∧ Firebase.a_id r = Firebase.u_id u
                           ∧ Firebase.a_name r = Firebase.u_name u)
           (filter (λ kd, Firebase.e_class_id kd.2 = c
                          ∧ is_Some (Firebase.users db
                                     !! Firebase.e_student_id kd.2))
              (map_to_list (Firebase.enrollments db)))
           rows
       ∧ (∀ r, r ∈ rows → Firebase.score r = 85 ∧ Firebase.attendance r = 90))
  ∧ (∀ c db1 db2,
       Firebase.users db1 = Firebase.users db2 →
       Firebase.enrollments db1 = Firebase.enrollments db2 →
       (Firebase.getClassAnalytics c db1).2
       = (Firebase.getClassAnalytics c db2).2).
Proof.
  split_and!.
  - intros c s. unfold Mock.getClassAnalytics, Mock.getUserById,
      Mock.classEnrollments.
    apply Forall2_fmap_r.
    eapply Forall2_impl;
      [apply (omap_filter_Forall2
                (λ e, Mock.find_user (Mock.e_student_id e) (Mock.users s))
                (λ e, Mock.e_class_id e = c))|].
    intros e u [Hc Hu]. split; [done|]. exists u. split_and!; [done| |done].
    simpl. by apply find_user_id in Hu.
  - exists (λ id, 70 + Z.rem (Mock.seed_of id) 30),
           (λ id, 80 + Z.rem (Mock.seed_of id) 20).
    intros c s r. unfold Mock.getClassAnalytics.
    rewrite list_elem_of_fmap. by intros (u & -> & _).
  - intros c s1 s2 Hu He.
    unfold Mock.getClassAnalytics, Mock.classEnrollments. by rewrite Hu, He.
  - intros c db. eexists. split; [apply getClassAnalytics_fb_spec|]. split.
    + apply Forall2_fmap_r. unfold Firebase.classEnrollmentDocs.
      rewrite (list_filter_iff
                 (λ kd : string * Firebase.Enrollment,
                    bool_decide (Firebase.e_class_id kd.2 = c) = true)
                 (λ kd, Firebase.e_class_id kd.2 = c))
        by (intros kd; by rewrite bool_decide_eq_true).
      eapply Forall2_impl_elem_of;
        [apply (omap_filter_Forall2
                  (λ kd : string * Firebase.Enrollment,
                     Firebase.users db !! Firebase.e_student_id kd.2)
                  (λ kd, Firebase.e_class_id kd.2 = c))|].
      intros [key e] u Hin [Hc Hu]. split; [done|]. split; [|by exists u].
      apply list_elem_of_filter in Hin as [_ Hin].
      by apply elem_of_map_to_list in Hin.
    + intros r. rewrite list_elem_of_fmap. by intros (u & -> & _).
  - intros c db1 db2 Hu He. rewrite !getClassAnalytics_fb_spec. simpl.
    unfold Firebase.classEnrollmentDocs. by rewrite Hu, He.
Qed.

Lemma getClassAnalytics_rows_witness :
  (Mock.getClassAnalytics "class-1" Scenario.mock_enrolled
   = [Mock.mkAnalytics "student-17" "Bob" 94 84]
   ∧ Mock.getClassAnalytics "class-2" Scenario.mock_enrolled = []
   ∧ Forall2
       (λ e r, Mock.e_class_id e = "class-1"
               ∧ ∃ u, Mock.getUserById (Mock.e_student_id e)
                        Scenario.mock_enrolled = Some u
                      ∧ Mock.a_id r = Mock.e_student_id e
                      ∧ Mock.a_name r = Mock.u_name u)
       [Mock.mkEnrollment "enroll-18" "class-1" "student-17"]
       [Mock.mkAnalytics "student-17" "Bob" 94 84])
  ∧ (Firebase.getClassAnalytics "c1" Scenario.fb_enrolled).2
    = Firebase.Ok [Firebase.mkAnalytics "uid1" "Bob" 85 90 5]
  ∧ Mock.getClassAnalytics "class-1" Scenario.mock_enrolled
    = Mock.getClassAnalytics "class-1"
        (Mock.setClassLiveStatus "class-1" true Scenario.mock_enrolled)
  ∧ (Firebase.getClassAnalytics "c1" Scenario.fb_enrolled).2
    = (Firebase.getClassAnalytics "c1"
         (Firebase.after (Firebase.setClassLiveStatus "c1" true 5)
            Scenario.fb_enrolled)).2.
Proof.
  pose proof getClassAnalytics_rows as (Hrows & _ & Hmock & _ & Hfb).
  split_and!.
  - vm_compute. reflexivity.
  - vm_compute. reflexivity.
  - exact (Hrows "class-1" Scenario.mock_enrolled).
  - vm_compute. reflexivity.
  - apply Hmock; vm_compute; reflexivity.
  - apply Hfb; vm_compute; reflexivity.
Defined.

(** * Further properties of the services *)

(** ** The in-memory service: analytics, login and class lists *)

Section MockAccounts.

Import Mock.
Implicit Types (s : Store) (u : User) (c : ClassModel).

Lemma seed_loop_nonneg (l : list ascii) (acc : Z) :
  0 ≤ acc → 0 ≤ fold_left (λ seed ch, seed + charCodeAt ch) l acc.
Proof.
  revert acc. induction l as [|a l IH]; intros acc Hacc; simpl; [done|].
  apply IH. unfold charCodeAt. lia.
Qed.

Lemma seed_of_nonneg (id : string) : 0 ≤ seed_of id.
Proof. by apply seed_loop_nonneg. Qed.

Lemma find_push {A} (P : A → bool) (l : list A) (x : A) :
  List.find P (l ++ [x]) =
    match List.find P l with
    | Some y => Some y
    | None => if P x then Some x else None
    end.
Proof.
  induction l as [|y l IH]; simpl; [done|]. by destruct (P y).
Qed.

Lemma find_sound {A} (P : A → bool) (l : list A) (x : A) :
  List.find P l = Some x → x ∈ l ∧ P x = true.
Proof.
  induction l as [|y l IH]; simpl; [done|].
  destruct (P y) eqn:Hy.
  - intros [= <-]. split; [apply list_elem_of_here|done].
  - intros [Hin HP]%IH. split; [by apply list_elem_of_further|done].
Qed.

Lemma is_student_with_code_true code u :
  is_student_with_code code u = true
  ↔ u_role u = STUDENT ∧ u_student_code u = Some code.
Proof.
  unfold is_student_with_code.
  by rewrite andb_true_iff, !bool_decide_eq_true.
Qed.

Lemma elem_of_getClasses_teacher t s c :
  c ∈ getClasses t TEACHER s ↔ c ∈ classes s ∧ c_teacher_id c = t.
Proof. unfold getClasses. simpl. rewrite list_elem_of_filter. tauto. Qed.

Lemma elem_of_getClasses_enrolled v role s c :
  role ≠ TEACHER →
  c ∈ getClasses v role s
  ↔ c ∈ classes s
    ∧ ∃ e, e ∈ enrollments s ∧ e_student_id e = v ∧ e_class_id e = c_id c.
Proof.
  intros Hrole. unfold getClasses. rewrite bool_decide_eq_false_2 by done.
  rewrite list_elem_of_filter, includes_true, list_elem_of_fmap.
  split.
  - intros [(e & Hid & [Hv He]%list_elem_of_filter) Hc]. eauto 6.
  - intros [Hc (e & He & Hv & Hid)]. split; [|done].
    exists e. split; [done|]. by apply list_elem_of_filter.
Qed.

Lemma filter_ext_elem_of {A} (P Q : A → Prop)
  `{!∀ x, Decision (P x), !∀ x, Decision (Q x)} (l : list A) :
  (∀ x, x ∈ l → P x ↔ Q x) → filter P l = filter Q l.
Proof.
  induction l as [|x l IH]; intros Hext; [done|].
  rewrite !filter_cons.
  rewrite IH by (intros y Hy; apply Hext; by apply list_elem_of_further).
  pose proof (Hext x (list_elem_of_here _ _)).
  repeat case_decide; tauto || done.
Qed.

Lemma find_class_None id cs :
  find_class id cs = None → ∀ c, c ∈ cs → c_id c ≠ id.
Proof.
  induction cs as [|k cs IH]; simpl; intros Hnone c Hc.
  - by apply elem_of_nil in Hc.
  - case_bool_decide as Hk; [done|].
    apply elem_of_cons in Hc as [->|Hc]; [done|]. by apply IH.
Qed.

End MockAccounts.

(** X1.  Every analytics row of the in-memory service has a score between
    70 and 99 and an attendance between 80 and 99, whatever the student ids
    are. *)
Theorem mock_analytics_in_range (c : string) (s : Mock.Store) :
  Forall (λ r, 70 ≤ Mock.score r ≤ 99 ∧ 80 ≤ Mock.attendance r ≤ 99)
    (Mock.getClassAnalytics c s).
Proof.
  unfold Mock.getClassAnalytics. apply Forall_fmap, Forall_forall.
  intros u _. simpl.
  pose proof (seed_of_nonneg (Mock.u_id u)) as Hseed.
  pose proof (Z.rem_bound_pos (Mock.seed_of (Mock.u_id u)) 30 Hseed).
  pose proof (Z.rem_bound_pos (Mock.seed_of (Mock.u_id u)) 20 Hseed).
  lia.
Qed.

(** X2.  [loginStudent] only ever returns a registered user with role
    [STUDENT] whose code is the one given.  After [generateStudentCode] or
    [createStudentAndEnroll] has issued a code, logging in with it succeeds,
    and gives the new student unless an earlier student already holds the
    same code.  On the freshly loaded store no code logs in. *)
Theorem loginStudent_after_code_issued :
  (∀ code s u, Mock.loginStudent code s = Some u →
     u ∈ Mock.users s ∧ Mock.u_role u = STUDENT
     ∧ Mock.u_student_code u = Some code)
  ∧ (∀ now code name s,
       let r := Mock.generateStudentCode now code name s in
       ∃ u, Mock.loginStudent code r.2 = Some u
            ∧ (Mock.loginStudent code s = None → u = r.1.1))
  ∧ (∀ now1 now2 code classId name s,
       let r := Mock.createStudentAndEnroll now1 now2 code classId name s in
       ∃ u, Mock.loginStudent code r.2 = Some u
            ∧ (Mock.loginStudent code s = None → u = r.1.1))
  ∧ (∀ code boot, Mock.loginStudent code (Mock.initial boot) = None).
Proof.
  split_and!.
  - intros code s u [Hin Hp]%find_sound.
    apply is_student_with_code_true in Hp. tauto.
  - intros now code name s. unfold Mock.loginStudent. simpl.
    rewrite find_push. destruct (find _ (Mock.users s)) as [u|].
    + exists u. split; [done|]. by intros [=].
    + rewrite (proj2 (is_student_with_code_true _ _)) by done. eauto.
  - intros now1 now2 code classId name s. unfold Mock.loginStudent. simpl.
    rewrite find_push. destruct (find _ (Mock.users s)) as [u|].
    + exists u. split; [done|]. by intros [=].
    + rewrite (proj2 (is_student_with_code_true _ _)) by done. eauto.
  - done.
Qed.

Lemma loginStudent_after_code_issued_witness :
  Mock.u_role (Mock.mkUser "student-17" STUDENT "Bob" (Some "K3J9ZQ")) = STUDENT
  ∧ ∃ u, Mock.loginStudent "K3J9ZQ"
           (Mock.generateStudentCode 21 "K3J9ZQ" "Eve" Scenario.mock_enrolled).2
         = Some u.
Proof.
  pose proof loginStudent_after_code_issued as (Hsound & Hgen & _ & _).
  split.
  - apply (Hsound "K3J9ZQ" Scenario.mock_enrolled
             (Mock.mkUser "student-17" STUDENT "Bob" (Some "K3J9ZQ"))).
    vm_compute. reflexivity.
  - destruct (Hgen 21%N "K3J9ZQ" "Eve" Scenario.mock_enrolled) as (u & Hu & _).
    by exists u.
Defined.

(** X3.  Who sees which class: a teacher's list holds exactly the classes
    with that teacher id; for any other role the list holds exactly the
    classes for which the enrollment array links the user to the class's
    id. *)
Theorem getClasses_visibility :
  (∀ t s c, c ∈ Mock.getClasses t TEACHER s
            ↔ c ∈ Mock.classes s ∧ Mock.c_teacher_id c = t)
  ∧ (∀ v role s c, role ≠ TEACHER →
       (c ∈ Mock.getClasses v role s
        ↔ c ∈ Mock.classes s
          ∧ ∃ e, e ∈ Mock.enrollments s ∧ Mock.e_student_id e = v
                 ∧ Mock.e_class_id e = Mock.c_id c)).
Proof.
  split.
  - apply elem_of_getClasses_teacher.
  - apply elem_of_getClasses_enrolled.
Qed.

Lemma getClasses_visibility_witness :
  let c := Mock.mkClass "class-1" "teacher-1" "Advanced Mathematics"
             "Calculus and Linear Algebra" Scenario.boot false in
  c ∈ Mock.getClasses "student-17" STUDENT Scenario.mock_enrolled
  ↔ c ∈ Mock.classes Scenario.mock_enrolled
    ∧ ∃ e, e ∈ Mock.enrollments Scenario.mock_enrolled
           ∧ Mock.e_student_id e = "student-17"
           ∧ Mock.e_class_id e = Mock.c_id c.
Proof.
  apply (proj2 getClasses_visibility "student-17" STUDENT
           Scenario.mock_enrolled).
  discriminate.
Defined.

(** X4.  Enrolling a student makes every class with that id visible to the
    student and changes nothing else: the student's list gains exactly
    those classes, every other user's list and every teacher's list stay
    the same.  No check is made that the class exists: enrolling into an
    unknown class id shows nothing. *)
Theorem enrollStudent_visibility (now : N) (classId studentId : string)
  (s : Mock.Store) :
  let s' := Mock.enrollStudent now classId studentId s in
  (∀ c, c ∈ Mock.getClasses studentId STUDENT s'
        ↔ c ∈ Mock.getClasses studentId STUDENT s
          ∨ (c ∈ Mock.classes s ∧ Mock.c_id c = classId))
  ∧ (∀ v, v ≠ studentId →
       Mock.getClasses v STUDENT s' = Mock.getClasses v STUDENT s)
  ∧ (∀ t, Mock.getClasses t TEACHER s' = Mock.getClasses t TEACHER s)
  ∧ (Mock.getClass classId s = None →
       Mock.getClasses studentId STUDENT s'
       = Mock.getClasses studentId STUDENT s).
Proof.
  simpl. split_and!.
  - intros c. rewrite !elem_of_getClasses_enrolled by done. simpl. split.
    + intros [Hc (e & [He|He]%elem_of_app & Hv & Hid)].
      * left. eauto 6.
      * apply list_elem_of_singleton in He. subst e. simpl in *. by right.
    + intros [[Hc (e & He & Hv & Hid)]|[Hc Hid]].
      * split; [done|]. exists e. split; [|done]. apply elem_of_app. by left.
      * split; [done|].
        exists (Mock.mkEnrollment ("enroll-" +:+ pretty now) classId studentId).
        split; [|done]. apply elem_of_app. right. apply list_elem_of_here.
  - intros v Hv. unfold Mock.getClasses. simpl.
    rewrite filter_app, filter_cons_False, filter_nil by (simpl; congruence).
    by rewrite app_nil_r.
  - done.
  - intros Hnone. unfold Mock.getClasses. simpl.
    rewrite filter_app, filter_cons_True, filter_nil, fmap_app by done. simpl.
    apply filter_ext_elem_of. intros c Hc.
    rewrite !includes_true, elem_of_app, list_elem_of_singleton.
    split; [|by left]. intros [Hin|Hid]; [done|].
    by destruct (find_class_None _ _ Hnone c Hc).
Qed.

Lemma enrollStudent_visibility_witness :
  let s' := Mock.enrollStudent 23 "class-404" "student-99"
              Scenario.mock_enrolled in
  Mock.getClasses "student-17" STUDENT s'
  = Mock.getClasses "student-17" STUDENT Scenario.mock_enrolled
  ∧ Mock.getClasses "student-99" STUDENT s'
    = Mock.getClasses "student-99" STUDENT Scenario.mock_enrolled.
Proof.
  pose proof (enrollStudent_visibility 23 "class-404" "student-99"
                Scenario.mock_enrolled) as (_ & Hother & _ & Hunknown).
  split.
  - apply Hother. discriminate.
  - apply Hunknown. vm_compute. reflexivity.
Defined.

(** X5.  [createClass] appends the new class, not live, to its teacher's
    list and leaves the lists of the other teachers alone.  Looking the new
    id up gives the new class only if the id was unused: when a class with
    that id already exists, [getClass] keeps returning the older one.
    Other ids resolve as before. *)
Theorem createClass_listed (now : N) (iso t title description : string)
  (s : Mock.Store) :
  let r := Mock.createClass now iso t title description s in
  Mock.getClasses t TEACHER r.2 = Mock.getClasses t TEACHER s ++ [r.1]
  ∧ Mock.c_isLive r.1 = false
  ∧ (∀ t', t' ≠ t →
       Mock.getClasses t' TEACHER r.2 = Mock.getClasses t' TEACHER s)
  ∧ Mock.getClass (Mock.c_id r.1) r.2
    = match Mock.getClass (Mock.c_id r.1) s with
      | Some old => Some old
      | None => Some r.1
      end
  ∧ (∀ id, id ≠ Mock.c_id r.1 → Mock.getClass id r.2 = Mock.getClass id s).
Proof.
  simpl. unfold Mock.getClasses, Mock.getClass. simpl. split_and!.
  - by rewrite filter_app, filter_cons_True, filter_nil.
  - done.
  - intros t' Ht'.
    rewrite filter_app, filter_cons_False, filter_nil by (simpl; congruence).
    by rewrite app_nil_r.
  - rewrite find_class_push. simpl. by rewrite bool_decide_eq_true_2.
  - intros id Hid. rewrite find_class_push. simpl.
    rewrite bool_decide_eq_false_2 by congruence.
    by destruct (Mock.find_class id (Mock.classes s)).
Qed.

Lemma createClass_listed_witness :
  let r := Mock.createClass 1700000000000 Scenario.boot "teacher-1"
             "Chemistry" "Organic" Scenario.mock_enrolled in
  Mock.getClasses "teacher-2" TEACHER r.2
  = Mock.getClasses "teacher-2" TEACHER Scenario.mock_enrolled
  ∧ Mock.getClass "class-1" r.2 = Mock.getClass "class-1" Scenario.mock_enrolled.
Proof.
  pose proof (createClass_listed 1700000000000 Scenario.boot "teacher-1"
                "Chemistry" "Organic" Scenario.mock_enrolled)
    as (_ & _ & Hteachers & _ & Hids).
  split.
  - apply Hteachers. discriminate.
  - apply Hids. vm_compute. discriminate.
Defined.

(** ** Session calls: undoing and reordering *)

Section SessionAlgebra.

Import Mock.
Implicit Types (s : Store) (ss : LiveSessionState) (c u : string).

Lemma put_same c ss s : LIVE_SESSIONS s !! c = Some ss →
  with_sessions (insert c ss) s = s.
Proof. intros Hss. by apply with_sessions_id, insert_id. Qed.

Lemma without_push_absent u (l : list string) : u ∉ l → without u (l ++ [u]) = l.
Proof.
  intros Hu. unfold without.
  rewrite filter_app, filter_cons_False, filter_nil, app_nil_r by tauto.
  by apply without_absent.
Qed.

(** Each session call applies its change to the record of its class, if
    there is one. *)
Lemma step_session_change k c f s :
  session_change k = Some (c, f) → step k s = with_sessions (alter f c) s.
Proof.
  intros Hk.
  assert (∀ ss, LIVE_SESSIONS s !! c = Some ss →
            with_sessions (insert c (f ss)) s = with_sessions (alter f c) s)
    as Hlive.
  { intros ss Hss. apply store_eq; simpl; try done.
    apply map_eq. intros c'. rewrite lookup_alter, lookup_insert.
    case_decide; [subst c'; by rewrite Hss|done]. }
  assert (LIVE_SESSIONS s !! c = None → s = with_sessions (alter f c) s)
    as Hnone.
  { intros Hno. symmetry. apply with_sessions_id, map_eq. intros c'.
    rewrite lookup_alter. case_decide; [subst c'; by rewrite Hno|done]. }
  destruct k as [| | c0 m | c0 u | c0 u | c0 u | c0 u | | |];
    simpl in Hk; try done; injection Hk as -> <-; simpl;
    (destruct (LIVE_SESSIONS s !! c) as [ss|] eqn:Hss;
     [ rewrite <-(Hlive ss eq_refl)
     | rewrite <-(Hnone eq_refl); by apply session_calls_absent ]).
  - by apply updateStreamMode_mock_live.
  - by apply raiseHand_live.
  - by apply lowerHand_live.
  - by apply allowSpeaker_live.
  - by apply muteSpeaker_live.
Qed.

Lemma session_changes_commute f g c1 c2 s :
  (c1 = c2 → ∀ ss, f (g ss) = g (f ss)) →
  with_sessions (alter f c1) (with_sessions (alter g c2) s)
  = with_sessions (alter g c2) (with_sessions (alter f c1) s).
Proof.
  intros Hfg. apply store_eq; simpl; try done.
  destruct (decide (c1 = c2)) as [<-|Hne].
  - apply map_eq. intros c'. destruct (decide (c1 = c')) as [<-|Hne].
    + rewrite !lookup_alter_eq.
      destruct (LIVE_SESSIONS s !! c1) as [ss|]; [|done].
      simpl. f_equal. by apply Hfg.
    + by rewrite !lookup_alter_ne.
  - apply map_eq. intros c'.
    destruct (decide (c1 = c')) as [Heq1|Hne1].
    + subst c'. by rewrite lookup_alter_eq, !(lookup_alter_ne _ _ c2),
        lookup_alter_eq.
    + rewrite (lookup_alter_ne _ _ c1) by done.
      destruct (decide (c2 = c')) as [Heq2|Hne2].
      * subst c'. by rewrite !lookup_alter_eq, lookup_alter_ne.
      * by rewrite !lookup_alter_ne.
Qed.

End SessionAlgebra.

(** X6.  Raising a hand that was not up and lowering it again gives back
    the store as it was, and so does granting the floor to a student who
    had neither the floor nor a hand up and muting the student again.  The
    Firestore [raiseHand] and [lowerHand] undo each other in the same
    way. *)
Theorem hand_up_and_down_restores (c u : string) :
  (∀ s ss, Mock.getLiveSessionState c s = Some ss →
     u ∉ Mock.raisedHands ss →
     Mock.lowerHand c u (Mock.raiseHand c u s) = s)
  ∧ (∀ s ss, Mock.getLiveSessionState c s = Some ss →
       u ∉ Mock.raisedHands ss → u ∉ Mock.activeSpeakers ss →
       Mock.muteSpeaker c u (Mock.allowSpeaker c u s) = s)
  ∧ (∀ db ss, Firebase.sessionSnapshot c db = Some ss →
       u ∉ Firebase.raisedHands ss →
       Firebase.after (Firebase.lowerHand c u)
         (Firebase.after (Firebase.raiseHand c u) db) = db).
Proof.
  split_and!.
  - intros s ss Hss Hu. unfold Mock.getLiveSessionState in Hss.
    rewrite (raiseHand_live _ _ _ _ Hss).
    rewrite (lowerHand_live _ _ _ _ (lookup_put _ _ _)), put_put. simpl.
    rewrite (proj2 (includes_false _ _) Hu), without_push_absent by done.
    apply put_same. rewrite Hss. by destruct ss.
  - intros s ss Hss Hu Hsp. unfold Mock.getLiveSessionState in Hss.
    rewrite (allowSpeaker_live _ _ _ _ Hss).
    rewrite (muteSpeaker_live _ _ _ _ (lookup_put _ _ _)), put_put. simpl.
    rewrite (proj2 (includes_false _ _) Hsp), without_push_absent by done.
    rewrite without_absent by done.
    apply put_same. rewrite Hss. by destruct ss.
  - intros db ss Hss Hu. unfold Firebase.sessionSnapshot, Firebase.after in *.
    rewrite (raiseHand_fb_live _ _ _ _ Hss). simpl.
    rewrite (lowerHand_fb_live _ _ _ _ (lookup_put_session _ _ _)). simpl.
    rewrite put_session_put_session.
    rewrite (proj2 (includes_false _ _) Hu), without_push_absent by done.
    apply put_session_id. rewrite Hss. by destruct ss.
Qed.

Lemma hand_up_and_down_restores_witness :
  Mock.lowerHand "class-1" "student-3"
    (Mock.raiseHand "class-1" "student-3" Scenario.mock_hands_up)
  = Scenario.mock_hands_up
  ∧ Mock.muteSpeaker "class-1" "student-3"
      (Mock.allowSpeaker "class-1" "student-3" Scenario.mock_hands_up)
    = Scenario.mock_hands_up
  ∧ Firebase.after (Firebase.lowerHand "c1" "student-3")
      (Firebase.after (Firebase.raiseHand "c1" "student-3")
         Scenario.fb_hands_up)
    = Scenario.fb_hands_up.
Proof.
  pose proof (hand_up_and_down_restores "class-1" "student-3")
    as (Hhand & Hfloor & _).
  pose proof (hand_up_and_down_restores "c1" "student-3") as (_ & _ & Hfb).
  split_and!.
  - apply (Hhand _ (Mock.mkSession "class-1" true CAMERA
                      ["student-7"; "student-9"] []));
      [vm_compute; reflexivity|].
    simpl. apply (bool_decide_unpack _). vm_compute. exact I.
  - apply (Hfloor _ (Mock.mkSession "class-1" true CAMERA
                       ["student-7"; "student-9"] []));
      [vm_compute; reflexivity| |];
      simpl; apply (bool_decide_unpack _); vm_compute; exact I.
  - apply (Hfb _ (Firebase.mkSession "c1" true CAMERA ["student-7"] [] 5));
      [vm_compute; reflexivity|].
    simpl. apply (bool_decide_unpack _). vm_compute. exact I.
Defined.

(** X7.  Session calls on different classes can be made in either order.
    On one class, the students' [raiseHand] and [lowerHand] can be swapped
    with the teacher's [muteSpeaker] and [updateStreamMode], and those two
    with each other: the store at the end is the same. *)
Theorem session_calls_reorder :
  (∀ k1 k2 c1 c2 f1 f2 s,
     Mock.session_change k1 = Some (c1, f1) →
     Mock.session_change k2 = Some (c2, f2) → c1 ≠ c2 →
     Mock.step k1 (Mock.step k2 s) = Mock.step k2 (Mock.step k1 s))
  ∧ (∀ c u v m s,
       Mock.raiseHand c u (Mock.muteSpeaker c v s)
       = Mock.muteSpeaker c v (Mock.raiseHand c u s)
       ∧ Mock.lowerHand c u (Mock.muteSpeaker c v s)
         = Mock.muteSpeaker c v (Mock.lowerHand c u s)
       ∧ Mock.raiseHand c u (Mock.updateStreamMode c m s)
         = Mock.updateStreamMode c m (Mock.raiseHand c u s)
       ∧ Mock.lowerHand c u (Mock.updateStreamMode c m s)
         = Mock.updateStreamMode c m (Mock.lowerHand c u s)
       ∧ Mock.muteSpeaker c v (Mock.updateStreamMode c m s)
         = Mock.updateStreamMode c m (Mock.muteSpeaker c v s)).
Proof.
  split.
  - intros k1 k2 c1 c2 f1 f2 s Hk1 Hk2 Hne.
    rewrite (step_session_change k1 c1 f1 _ Hk1).
    rewrite !(step_session_change k2 c2 f2 _ Hk2).
    rewrite (step_session_change k1 c1 f1 _ Hk1).
    by apply session_changes_commute.
  - intros c u v m s.
    pose proof (λ s, step_session_change (Mock.RaiseHand c u) c _ s eq_refl)
      as Hraise.
    pose proof (λ s, step_session_change (Mock.LowerHand c u) c _ s eq_refl)
      as Hlower.
    pose proof (λ s, step_session_change (Mock.MuteSpeaker c v) c _ s eq_refl)
      as Hmute.
    pose proof (λ s, step_session_change (Mock.UpdateStreamMode c m) c _ s
                       eq_refl) as Hmode.
    simpl in Hraise, Hlower, Hmute, Hmode.
    rewrite !Hraise, !Hlower, !Hmute, !Hmode.
    split_and!; by apply session_changes_commute.
Qed.

Lemma session_calls_reorder_witness :
  Mock.step (Mock.RaiseHand "class-1" "student-3")
    (Mock.step (Mock.AllowSpeaker "class-2" "student-7")
       Scenario.mock_hands_up)
  = Mock.step (Mock.AllowSpeaker "class-2" "student-7")
      (Mock.step (Mock.RaiseHand "class-1" "student-3")
         Scenario.mock_hands_up).
Proof.
  eapply (proj1 session_calls_reorder); [reflexivity|reflexivity|].
  discriminate.
Defined.

(** ** Invariants of the two session stores *)

(** X8.  In every store the in-memory service can reach, no user id occurs
    twice in the raised hands or twice in the active speakers of a
    session. *)
Theorem mock_membership_ids_distinct (s : Mock.Store) (c : string)
  (ss : Mock.LiveSessionState) :
  Mock.reachable s → Mock.getLiveSessionState c s = Some ss →
  NoDup (Mock.raisedHands ss) ∧ NoDup (Mock.activeSpeakers ss).
Proof.
  intros Hr Hss. revert c ss Hss. change (Mock.distinct_ids s).
  induction Hr as [boot|k s _ IH].
  - intros c ss. simpl. by rewrite lookup_empty.
  - by apply distinct_ids_step.
Qed.

Lemma mock_membership_ids_distinct_witness :
  NoDup ["student-7"; "student-9"] ∧ NoDup (@nil string).
Proof.
  apply (mock_membership_ids_distinct Scenario.mock_hands_up "class-1"
           (Mock.mkSession "class-1" true CAMERA
              ["student-7"; "student-9"] [])).
  - unfold Scenario.mock_hands_up, Mock.run. cbn [fold_left].
    do 3 apply Mock.reach_step. apply Mock.reach_initial.
  - vm_compute. reflexivity.
Defined.

(** X9.  In every database the Firestore service can reach, no user id
    occurs twice in the raised hands of a session document. *)
Theorem firestore_raised_hands_distinct (db : Firebase.Db) (c : string)
  (ss : Firebase.LiveSessionState) :
  Firebase.reachable db → Firebase.sessionSnapshot c db = Some ss →
  NoDup (Firebase.raisedHands ss).
Proof.
  intros Hr Hss. revert c ss Hss. change (Firebase.distinct_hands db).
  induction Hr as [db Hempty|k db _ IH].
  - intros c ss. by rewrite Hempty, lookup_empty.
  - by apply distinct_hands_step.
Qed.

Lemma firestore_raised_hands_distinct_witness : NoDup ["student-7"].
Proof.
  apply (firestore_raised_hands_distinct Scenario.fb_hands_up "c1"
           (Firebase.mkSession "c1" true CAMERA ["student-7"] [] 5)).
  - unfold Scenario.fb_hands_up, Firebase.run. cbn [fold_left].
    do 3 apply Firebase.reach_step. apply Firebase.reach_initial.
    reflexivity.
  - vm_compute. reflexivity.
Defined.

(** X10.  The Firestore service keeps session documents and live flags in
    step: if a session document exists exactly for the classes flagged
    live, this is still so after any call, provided [createClass] is given
    an unused id.  The proviso is needed: writing a class document over a
    live class leaves its session document behind. *)
Theorem firestore_live_flag_matches_session :
  (∀ k db, Firebase.live_iff_session db → Firebase.uses_fresh_id k db →
     Firebase.live_iff_session (Firebase.step k db))
  ∧ (is_Some (Firebase.sessionSnapshot "c1" Scenario.fb_class_overwritten)
     ∧ Firebase.c_isLive
         <$> Firebase.classes Scenario.fb_class_overwritten !! "c1"
       = Some false).
Proof.
  split; [|split; [by eexists|done]].
  intros k db Hinv Hfresh.
  destruct k as [id iso j t ti d| c b now | c m | c u | c u | c u | |];
    simpl in *; unfold Firebase.after; try exact Hinv.
  - intros c. simpl. rewrite (Hinv c).
    destruct (decide (id = c)) as [<-|Hne].
    + rewrite lookup_insert_eq, Hfresh. split.
      * by intros (k & [=] & _).
      * by intros (k & [= <-] & Hlive).
    + by rewrite lookup_insert_ne.
  - destruct (Firebase.classes db !! c) as [k|] eqn:Hk.
    + rewrite (setClassLiveStatus_fb_class _ _ _ _ _ Hk). intros c'. simpl.
      destruct (decide (c = c')) as [<-|Hne].
      * rewrite lookup_insert_eq. destruct b.
        -- rewrite lookup_insert_eq. split; [|by eauto]. intros _.
           by eexists.
        -- rewrite lookup_delete_eq. split; [by intros [? ?]|].
           by intros (k' & [= <-] & Hlive).
      * rewrite lookup_insert_ne by done. rewrite <-(Hinv c').
        destruct b; [by rewrite lookup_insert_ne|by rewrite lookup_delete_ne].
    + by rewrite (setClassLiveStatus_fb_noclass _ _ _ _ Hk).
  - destruct (Firebase.sessions db !! c) as [ss|] eqn:Hss.
    + rewrite (updateStreamMode_live _ _ _ _ Hss). intros c'. simpl.
      rewrite <-(Hinv c'). destruct (decide (c = c')) as [<-|Hne].
      * rewrite lookup_insert_eq, Hss. split; eauto.
      * by rewrite lookup_insert_ne.
    + by rewrite (updateStreamMode_absent _ _ _ Hss).
  - destruct (Firebase.sessions db !! c) as [ss|] eqn:Hss.
    + rewrite (raiseHand_fb_live _ _ _ _ Hss). intros c'. simpl.
      rewrite <-(Hinv c'). destruct (decide (c = c')) as [<-|Hne].
      * rewrite lookup_insert_eq, Hss. split; eauto.
      * by rewrite lookup_insert_ne.
    + by rewrite (proj1 (guarded_calls_absent c u db Hss)).
  - destruct (Firebase.sessions db !! c) as [ss|] eqn:Hss.
    + rewrite (lowerHand_fb_live _ _ _ _ Hss). intros c'. simpl.
      rewrite <-(Hinv c'). destruct (decide (c = c')) as [<-|Hne].
      * rewrite lookup_insert_eq, Hss. split; eauto.
      * by rewrite lookup_insert_ne.
    + by rewrite (proj1 (proj2 (guarded_calls_absent c u db Hss))).
  - destruct (Firebase.sessions db !! c) as [ss|] eqn:Hss.
    + rewrite (allowSpeaker_fb_live _ _ _ _ Hss). intros c'. simpl.
      rewrite <-(Hinv c'). destruct (decide (c = c')) as [<-|Hne].
      * rewrite lookup_insert_eq, Hss. split; eauto.
      * by rewrite lookup_insert_ne.
    + by rewrite (proj2 (proj2 (guarded_calls_absent c u db Hss))).
Qed.

Lemma firestore_live_flag_matches_session_witness :
  Firebase.live_iff_session
    (Firebase.step (Firebase.SetClassLiveStatus "c1" true 5)
       Scenario.fb_offline).
Proof.
  pose proof (proj1 firestore_live_flag_matches_session) as Hstep.
  apply Hstep; [|exact I].
  unfold Scenario.fb_offline, Firebase.run. cbn [fold_left].
  apply Hstep; [|vm_compute; reflexivity].
  intros c. unfold Scenario.fb_empty. simpl. rewrite !lookup_empty. split.
  - by intros [? ?].
  - by intros (k & [=] & _).
Defined.

(** ** The class page: raising a hand and listing the raised hands *)

(** X11.  With the page's session state up to date, the raise-hand button
    toggles: afterwards the user's hand is up exactly if it was down
    before, everybody else's hand and every other field of the session
    are as before.  When the session has ended in the meantime, the
    button does nothing, whatever the page still shows. *)
Theorem handleRaiseHand_toggles (c u : string) (s : Mock.Store) :
  (∀ ss, Mock.getLiveSessionState c s = Some ss →
     ∃ ss', Mock.getLiveSessionState c
              (Mock.handleRaiseHand (Some ss) c u s) = Some ss'
            ∧ (u ∈ Mock.raisedHands ss' ↔ u ∉ Mock.raisedHands ss)
            ∧ (∀ v, v ≠ u →
                 (v ∈ Mock.raisedHands ss' ↔ v ∈ Mock.raisedHands ss))
            ∧ Mock.same_but_raisedHands ss ss')
  ∧ (Mock.getLiveSessionState c s = None →
       ∀ shown, Mock.handleRaiseHand shown c u s = s).
Proof.
  unfold Mock.getLiveSessionState. split.
  - intros ss Hss. unfold Mock.handleRaiseHand.
    destruct (includes u (Mock.raisedHands ss)) eqn:E.
    + rewrite (lowerHand_live _ _ _ _ Hss), lookup_put. eexists.
      split; [done|]. simpl. apply includes_true in E. split_and!.
      * split; [by intros ?%not_elem_of_without|done].
      * intros v Hv. rewrite elem_of_without. tauto.
      * by repeat split.
    + rewrite (raiseHand_live _ _ _ _ Hss), lookup_put. eexists.
      split; [done|]. simpl. rewrite E. apply includes_false in E.
      split_and!.
      * split; [done|]. intros _. apply elem_of_push. by right.
      * intros v Hv. rewrite elem_of_push. tauto.
      * by repeat split.
  - intros Hno shown.
    destruct (session_calls_absent c s Hno) as (_ & Hraise & Hlower & _).
    unfold Mock.handleRaiseHand. destruct shown as [st|]; [|done].
    by destruct (includes u (Mock.raisedHands st)).
Qed.

Lemma handleRaiseHand_toggles_witness :
  (∃ ss', Mock.getLiveSessionState "class-1"
            (Mock.handleRaiseHand
               (Some (Mock.mkSession "class-1" true CAMERA
                        ["student-7"; "student-9"] []))
               "class-1" "student-7" Scenario.mock_hands_up) = Some ss'
          ∧ Mock.mode ss' = CAMERA)
  ∧ Mock.handleRaiseHand None "class-2" "student-7" Scenario.mock_hands_up
    = Scenario.mock_hands_up.
Proof.
  split.
  - destruct (proj1 (handleRaiseHand_toggles "class-1" "student-7"
                       Scenario.mock_hands_up)
                (Mock.mkSession "class-1" true CAMERA
                   ["student-7"; "student-9"] []))
      as (ss' & Hget & _ & _ & (_ & _ & Hmode & _));
      [vm_compute; reflexivity|].
    exists ss'. split; [exact Hget|exact Hmode].
  - apply (proj2 (handleRaiseHand_toggles "class-2" "student-7"
                    Scenario.mock_hands_up)).
    vm_compute. reflexivity.
Defined.

(** X12.  The hand raisers the page lists are the profiles of the ids in
    [raisedHands], in the same order; an id without a profile is left out,
    and without a session the list is empty. *)
Theorem raisedHandUsers_are_profiles (s : Mock.Store)
  (sessionState : option Mock.LiveSessionState) :
  Forall2 (λ id usr, Mock.getUserById id s = Some usr ∧ Mock.u_id usr = id)
    (filter (λ id, is_Some (Mock.getUserById id s))
       (from_option Mock.raisedHands [] sessionState))
    (Mock.raisedHandUsers s sessionState).
Proof.
  unfold Mock.raisedHandUsers. destruct sessionState as [st|]; simpl;
    [|constructor].
  case_bool_decide as Hlen.
  - eapply Forall2_impl; [apply omap_Forall2|].
    intros id usr Husr. split; [done|]. by apply find_user_id in Husr.
  - destruct (Mock.raisedHands st); [constructor|simpl in Hlen; lia].
Qed.

(** ** The in-memory exams and videos *)



(** ** The Firestore class lists *)

Section FirestoreLists.

Import Firebase.

#[global] Instance by_field_desc_total {A} (field : A → string) :
  Total (by_field_desc field).
Proof.
  intros x y. unfold by_field_desc, not_older.
  destruct (String.leb_total (field y.2) (field x.2)); auto.
Qed.

Lemma getDocs_where_orderBy_desc_spec {A} (C : Collection A) (P : A → bool)
  (field : A → string) (db : Db) :
  ∃ snapshot,
    getDocs_where_orderBy_desc C P field db = (db, Ok snapshot)
    ∧ Sorted (by_field_desc field) snapshot
    ∧ snapshot ≡ₚ filter (λ kd, P kd.2 = true) (map_to_list (docs C db)).
Proof.
  eexists. split; [done|]. split.
  - apply (Sorted_merge_sort _).
  - apply merge_sort_Permutation.
Qed.

(** The class ids the student branch of [getClasses] asks for. *)
Lemma classIds_spec userId db id :
  id ∈ map (λ d : string * Enrollment, e_class_id d.2)
         (filter (λ kd, bool_decide (e_student_id kd.2 = userId) = true)
            (map_to_list (enrollments db)))
  ↔ ∃ key e, enrollments db !! key = Some e ∧ e_student_id e = userId
             ∧ e_class_id e = id.
Proof.
  rewrite list_elem_of_fmap. split.
  - intros ([key e] & -> & Hin).
    apply list_elem_of_filter in Hin as [Hu He].
    apply elem_of_map_to_list in He. apply bool_decide_eq_true in Hu. eauto.
  - intros (key & e & He & Hu & <-). exists (key, e). split; [done|].
    apply list_elem_of_filter. split; [by apply bool_decide_eq_true|].
    by apply elem_of_map_to_list.
Qed.

End FirestoreLists.

(** X14.  The Firestore [getClasses] reads only.  A teacher gets the
    classes with that teacher id, each once, newest first.  Any other user
    gets nothing when no enrollment names the user; otherwise every class
    returned is one some enrollment of the user names, at most ten classes
    come back when class documents are stored under their ids, and all the
    enrolled classes come back when the user has at most ten
    enrollments. *)
Theorem firestore_getClasses_lists (userId : string) (db : Firebase.Db) :
  (∃ l, Firebase.getClasses userId TEACHER db = (db, Firebase.Ok l)
        ∧ Sorted (λ a b, Firebase.not_older (Firebase.c_created_at a)
                           (Firebase.c_created_at b)) l
        ∧ l ≡ₚ (filter (λ kd, Firebase.c_teacher_id kd.2 = userId)
                  (map_to_list (Firebase.classes db))).*2)
  ∧ (∀ role, role ≠ TEACHER →
       let enrolled :=
         filter (λ kd, Firebase.e_student_id kd.2 = userId)
           (map_to_list (Firebase.enrollments db)) in
       ∃ l, Firebase.getClasses userId role db = (db, Firebase.Ok l)
            ∧ (enrolled = [] → l = [])
            ∧ (∀ c, c ∈ l →
                 (∃ key, Firebase.classes db !! key = Some c)
                 ∧ ∃ key e, Firebase.enrollments db !! key = Some e
                            ∧ Firebase.e_student_id e = userId
                            ∧ Firebase.e_class_id e = Firebase.c_id c)
            ∧ (Firebase.classes_keyed_by_id db → (List.length l ≤ 10)%nat)
            ∧ ((List.length enrolled ≤ 10)%nat →
               ∀ key c kd, Firebase.classes db !! key = Some c →
                 kd ∈ enrolled → Firebase.e_class_id kd.2 = Firebase.c_id c →
                 c ∈ l)).
Proof.
  split.
  - unfold Firebase.getClasses. simpl.
    unfold mbind, Firebase.Fire_bind, Firebase.bind.
    destruct (getDocs_where_orderBy_desc_spec Firebase.classesC
                (λ c, bool_decide (Firebase.c_teacher_id c = userId))
                Firebase.c_created_at db) as (snap & -> & Hsorted & Hperm).
    eexists. split; [done|]. split.
    + by apply (Sorted_fmap snd
                  (Firebase.by_field_desc Firebase.c_created_at)).
    + rewrite Hperm. simpl.
      by rewrite (list_filter_iff
                   (λ kd : string * Firebase.ClassModel,
                      bool_decide (Firebase.c_teacher_id kd.2 = userId) = true)
                   (λ kd, Firebase.c_teacher_id kd.2 = userId))
        by (intros kd; by rewrite bool_decide_eq_true).
  - intros role Hrole. simpl. unfold Firebase.getClasses.
    rewrite bool_decide_eq_false_2 by done.
    unfold mbind, Firebase.Fire_bind, Firebase.bind, Firebase.getDocs_where.
    simpl.
    assert (filter (λ kd : string * Firebase.Enrollment,
                      bool_decide (Firebase.e_student_id kd.2 = userId) = true)
              (map_to_list (Firebase.enrollments db))
            = filter (λ kd, Firebase.e_student_id kd.2 = userId)
                (map_to_list (Firebase.enrollments db))) as Hfilter.
    { apply list_filter_iff. intros kd. by rewrite bool_decide_eq_true. }
    rewrite length_map.
    case_bool_decide as Hlen.
    + exists []. rewrite Hfilter in Hlen. apply nil_length_inv in Hlen.
      split_and!; try done.
      * intros c Hc. by apply elem_of_nil in Hc.
      * simpl. lia.
      * rewrite Hlen. intros _ key c kd _ Hkd. by apply elem_of_nil in Hkd.
    + eexists. split; [done|]. split_and!.
      * rewrite <-Hfilter. intros Hnil. rewrite Hnil in Hlen. done.
      * intros c ([key c'] & -> & Hin)%list_elem_of_fmap.
        apply list_elem_of_filter in Hin as [Hid Hc].
        apply elem_of_map_to_list in Hc. simpl in *.
        split; [by eauto|].
        apply includes_true, subseteq_take in Hid.
        by apply classIds_spec in Hid.
      * intros Hkeyed. rewrite length_fmap.
        rewrite <-(length_fmap fst).
        transitivity (List.length
                        (take 10
                           (map (λ d : string * Firebase.Enrollment,
                                   Firebase.e_class_id d.2)
                              (filter
                                 (λ kd, bool_decide
                                          (Firebase.e_student_id kd.2 = userId)
                                        = true)
                                 (map_to_list (Firebase.enrollments db))))));
          [|rewrite length_take; lia].
        apply submseteq_length, NoDup_submseteq.
        -- apply (sublist_NoDup _ ((map_to_list (Firebase.classes db)).*1)).
           ++ apply NoDup_fst_map_to_list.
           ++ apply fmap_sublist, sublist_filter.
        -- intros key ([key' c] & -> & Hin)%list_elem_of_fmap.
           apply list_elem_of_filter in Hin as [Hid Hc].
           apply elem_of_map_to_list in Hc. simpl in *.
           rewrite <-(Hkeyed _ _ Hc). by apply includes_true.
      * intros Hten key c kd Hc Hkd Hid. apply list_elem_of_fmap.
        exists (key, c). split; [done|].
        apply list_elem_of_filter. split; [|by apply elem_of_map_to_list].
        simpl. apply includes_true. rewrite take_ge by (by rewrite length_map, Hfilter).
        rewrite Hfilter. apply list_elem_of_fmap. exists kd. split; [|done].
        by rewrite Hid.
Qed.

Lemma firestore_getClasses_lists_witness :
  ∃ l, Firebase.getClasses "uid1" STUDENT Scenario.fb_enrolled
       = (Scenario.fb_enrolled, Firebase.Ok l)
       ∧ (Firebase.classes_keyed_by_id Scenario.fb_enrolled →
          (List.length l ≤ 10)%nat).
Proof.
  destruct (proj2 (firestore_getClasses_lists "uid1" Scenario.fb_enrolled)
              STUDENT) as (l & Hl & _ & _ & Hten & _); [discriminate|].
  exists l. split; [exact Hl|exact Hten].
Defined.

(** ** The whiteboard *)

Section WhiteboardStore.

Import Firebase.
Context {coord : Type}.
Implicit Types (bs : gmap string (gmap string (WhiteboardPath coord))).
Implicit Types (p : WhiteboardPath coord) (c key : string).

#[local] Instance by_timestamp_total : Total (@by_timestamp coord).
Proof. intros x y. unfold by_timestamp. apply (total (≤)%N). Qed.

#[local] Instance by_timestamp_trans : Transitive (@by_timestamp coord).
Proof. intros x y z. unfold by_timestamp. apply N.le_trans. Qed.

Lemma board_send c p bs :
  board c (sendWhiteboardPath c p bs) = <[w_id p := p]> (board c bs).
Proof. unfold board at 1, sendWhiteboardPath. by rewrite lookup_insert_eq. Qed.

Lemma board_send_other c c' p bs :
  c' ≠ c → board c' (sendWhiteboardPath c p bs) = board c' bs.
Proof.
  intros Hne. unfold board, sendWhiteboardPath. by rewrite lookup_insert_ne.
Qed.

Lemma board_deleteStroke c key bs :
  board c (deleteStroke c key bs) = delete key (board c bs).
Proof. unfold board at 1, deleteStroke. by rewrite lookup_insert_eq. Qed.

Lemma board_deleteStroke_other c c' key bs :
  c' ≠ c → board c' (deleteStroke c key bs) = board c' bs.
Proof. intros Hne. unfold board, deleteStroke. by rewrite lookup_insert_ne. Qed.

Lemma board_delete_all c (l : list (string * WhiteboardPath coord)) bs key :
  board c (fold_left (λ bs d, deleteStroke c d.1 bs) l bs) !! key
  = if decide (key ∈ l.*1) then None else board c bs !! key.
Proof.
  revert bs. induction l as [|d l IH]; intros bs.
  - cbn [fold_left]. case_decide as Hin; [|done].
    by apply elem_of_nil in Hin.
  - cbn [fold_left]. rewrite IH, board_deleteStroke.
    rewrite fmap_cons. case_decide as Hin; case_decide as Hin'.
    + done.
    + exfalso. apply Hin'. by apply list_elem_of_further.
    + apply elem_of_cons in Hin' as [Heq|?]; [|done].
      rewrite Heq. apply lookup_delete_eq.
    + apply lookup_delete_ne. intros Heq. apply Hin'. rewrite <-Heq.
      apply list_elem_of_here.
Qed.

Lemma board_delete_all_other c c' (l : list (string * WhiteboardPath coord))
  bs :
  c' ≠ c → board c' (fold_left (λ bs d, deleteStroke c d.1 bs) l bs)
           = board c' bs.
Proof.
  intros Hne. revert bs. induction l as [|d l IH]; intros bs; simpl; [done|].
  by rewrite IH, board_deleteStroke_other.
Qed.

Lemma board_clear c bs : board c (clearWhiteboard c bs) = ∅.
Proof.
  apply map_eq. intros key. unfold clearWhiteboard.
  rewrite board_delete_all, lookup_empty. case_decide as Hin; [done|].
  destruct (board c bs !! key) as [p|] eqn:Hkey; [|done].
  exfalso. apply Hin, list_elem_of_fmap. exists (key, p).
  split; [done|]. by apply elem_of_map_to_list.
Qed.

Lemma elem_of_whiteboardSnapshot c bs p :
  p ∈ whiteboardSnapshot c bs ↔ ∃ key, board c bs !! key = Some p.
Proof.
  unfold whiteboardSnapshot. rewrite merge_sort_Permutation.
  rewrite list_elem_of_fmap. split.
  - intros ([key p'] & -> & Hin%elem_of_map_to_list). eauto.
  - intros (key & Hkey). exists (key, p). split; [done|].
    by apply elem_of_map_to_list.
Qed.

Lemma whiteboardSnapshot_sorted c bs :
  StronglySorted (λ a b : WhiteboardPath coord,
                    (w_timestamp a ≤ w_timestamp b)%N)
    (whiteboardSnapshot c bs).
Proof.
  unfold whiteboardSnapshot.
  apply (StronglySorted_fmap snd by_timestamp); [done|].
  apply (StronglySorted_merge_sort _).
Qed.

End WhiteboardStore.

(** X15.  After [clearWhiteboard] the whiteboard of the class has no
    stroke left, whatever it held, and the whiteboards of the other classes
    are as they were. *)
Theorem clearWhiteboard_empties {coord : Type} (c : string)
  (bs : gmap string (gmap string (Firebase.WhiteboardPath coord))) :
  Firebase.whiteboardSnapshot c (Firebase.clearWhiteboard c bs) = []
  ∧ (∀ c', c' ≠ c →
       Firebase.board c' (Firebase.clearWhiteboard c bs) = Firebase.board c' bs
       ∧ Firebase.whiteboardSnapshot c' (Firebase.clearWhiteboard c bs)
         = Firebase.whiteboardSnapshot c' bs).
Proof.
  split.
  - unfold Firebase.whiteboardSnapshot. rewrite board_clear.
    by rewrite map_to_list_empty.
  - intros c' Hne.
    assert (Firebase.board c' (Firebase.clearWhiteboard c bs)
            = Firebase.board c' bs) as Hboard
      by (by apply board_delete_all_other).
    split; [done|]. unfold Firebase.whiteboardSnapshot. by rewrite Hboard.
Qed.

Lemma clearWhiteboard_empties_witness :
  Firebase.whiteboardSnapshot "c2"
    (Firebase.clearWhiteboard "c1" Scenario.two_strokes)
  = Firebase.whiteboardSnapshot "c2" Scenario.two_strokes.
Proof.
  apply (proj2 (clearWhiteboard_empties "c1" Scenario.two_strokes) "c2").
  discriminate.
Defined.

(** X16.  The strokes a whiteboard listener receives are the stored
    strokes of the class, each once, by non-decreasing time stamp.  A stroke
    that was sent is among them; sent under a new id it is one more stroke
    beside the old ones, and sent under the id of an existing stroke it
    replaces that stroke.  Sending to one class leaves the other
    whiteboards alone. *)
Theorem sendWhiteboardPath_recorded {coord : Type} (c : string)
  (p : Firebase.WhiteboardPath coord)
  (bs : gmap string (gmap string (Firebase.WhiteboardPath coord))) :
  StronglySorted (λ a b, (Firebase.w_timestamp a ≤ Firebase.w_timestamp b)%N)
    (Firebase.whiteboardSnapshot c bs)
  ∧ Firebase.whiteboardSnapshot c bs ≡ₚ (map_to_list (Firebase.board c bs)).*2
  ∧ p ∈ Firebase.whiteboardSnapshot c (Firebase.sendWhiteboardPath c p bs)
  ∧ (Firebase.board c bs !! Firebase.w_id p = None →
       Firebase.whiteboardSnapshot c (Firebase.sendWhiteboardPath c p bs)
       ≡ₚ p :: Firebase.whiteboardSnapshot c bs)
  ∧ (∀ p', Firebase.w_id p' = Firebase.w_id p →
       Firebase.sendWhiteboardPath c p (Firebase.sendWhiteboardPath c p' bs)
       = Firebase.sendWhiteboardPath c p bs)
  ∧ (∀ c', c' ≠ c →
       Firebase.whiteboardSnapshot c' (Firebase.sendWhiteboardPath c p bs)
       = Firebase.whiteboardSnapshot c' bs).
Proof.
  split_and!.
  - apply whiteboardSnapshot_sorted.
  - unfold Firebase.whiteboardSnapshot. by rewrite merge_sort_Permutation.
  - apply elem_of_whiteboardSnapshot. exists (Firebase.w_id p).
    by rewrite board_send, lookup_insert_eq.
  - intros Hfresh. unfold Firebase.whiteboardSnapshot.
    rewrite !merge_sort_Permutation, board_send.
    by rewrite map_to_list_insert.
  - intros p' Hid. unfold Firebase.sendWhiteboardPath at 1 3.
    rewrite board_send, Hid, insert_insert_eq.
    unfold Firebase.sendWhiteboardPath. by rewrite insert_insert_eq.
  - intros c' Hne. unfold Firebase.whiteboardSnapshot.
    by rewrite board_send_other.
Qed.

Lemma sendWhiteboardPath_recorded_witness :
  let p := Firebase.mkPath "p3" "teacher-1" "#000000" 3 [(5, 5)] 55
             Firebase.draw in
  Firebase.whiteboardSnapshot "c1"
    (Firebase.sendWhiteboardPath "c1" p Scenario.two_strokes)
  ≡ₚ p :: Firebase.whiteboardSnapshot "c1" Scenario.two_strokes
  ∧ Firebase.whiteboardSnapshot "c2"
      (Firebase.sendWhiteboardPath "c1" p Scenario.two_strokes)
    = Firebase.whiteboardSnapshot "c2" Scenario.two_strokes.
Proof.
  intros p.
  pose proof (sendWhiteboardPath_recorded "c1" p Scenario.two_strokes)
    as (_ & _ & _ & Hfresh & _ & Hother).
  split.
  - apply Hfresh. vm_compute. reflexivity.
  - apply Hother. discriminate.
Defined.

Example whiteboard_replay_order :
  Firebase.w_id <$> Firebase.whiteboardSnapshot "c1" Scenario.two_strokes
  = ["p1"; "p2"].
Proof. vm_compute. reflexivity. Qed.

(** ** The Firestore posts, videos and exams *)

Section FirestoreContent.

Import Firebase.
Context {A : Type} (P : A → Prop) `{!∀ d, Decision (P d)} (field : A → string).
Implicit Types (docs : gmap string A) (d : A).

Lemma query_desc_sorted docs :
  Sorted (λ a b, not_older (field a) (field b)) (query_desc docs P field).
Proof.
  unfold query_desc.
  apply (Sorted_fmap snd (by_field_desc field)); [done|].
  apply (Sorted_merge_sort _).
Qed.

Lemma query_desc_Permutation docs :
  query_desc docs P field ≡ₚ (filter (λ kd, P kd.2) (map_to_list docs)).*2.
Proof. unfold query_desc. by rewrite merge_sort_Permutation. Qed.

Lemma elem_of_query_desc docs d :
  d ∈ query_desc docs P field ↔ P d ∧ ∃ key, docs !! key = Some d.
Proof.
  rewrite query_desc_Permutation, list_elem_of_fmap. split.
  - intros ([key d'] & -> & [HP Hin%elem_of_map_to_list]%list_elem_of_filter).
    eauto.
  - intros [HP (key & Hkey)]. exists (key, d). split; [done|].
    apply list_elem_of_filter. split; [done|]. by apply elem_of_map_to_list.
Qed.

Lemma query_desc_insert docs id d :
  docs !! id = None →
  query_desc (<[id := d]> docs) P field
  ≡ₚ if decide (P d) then d :: query_desc docs P field
     else query_desc docs P field.
Proof.
  intros Hfresh. destruct (decide (P d)) as [HP|HP];
    rewrite !query_desc_Permutation, (map_to_list_insert _ _ _ Hfresh).
  - by rewrite filter_cons_True.
  - by rewrite filter_cons_False.
Qed.

End FirestoreContent.

(** X17.  [getPosts] and [getVideos] return the documents of the class,
    newest first.  A post or video written under an unused id is one more
    entry in the list of its class and changes no other class's list;
    [createPost] touches no video or exam and [uploadVideo] no post or
    exam.  A created exam is listed for its class and is active whatever
    the caller passed. *)
Theorem firestore_content_lists (c : string) (lib : Firebase.Library) :
  Sorted (λ a b, Firebase.not_older (Firebase.p_created_at a)
                   (Firebase.p_created_at b)) (Firebase.getPosts c lib)
  ∧ Sorted (λ a b, Firebase.not_older (Firebase.v_uploaded_at a)
                     (Firebase.v_uploaded_at b)) (Firebase.getVideos c lib)
  ∧ (∀ p, p ∈ Firebase.getPosts c lib
          ↔ Firebase.p_class_id p = c
            ∧ ∃ key, Firebase.posts lib !! key = Some p)
  ∧ (∀ v, v ∈ Firebase.getVideos c lib
          ↔ Firebase.v_class_id v = c
            ∧ ∃ key, Firebase.videos lib !! key = Some v)
  ∧ (∀ id iso post, Firebase.posts lib !! id = None →
       let r := Firebase.createPost id iso post lib in
       Firebase.getPosts (Firebase.p_class_id post) r.2
       ≡ₚ r.1 :: Firebase.getPosts (Firebase.p_class_id post) lib
       ∧ (c ≠ Firebase.p_class_id post →
            Firebase.getPosts c r.2 ≡ₚ Firebase.getPosts c lib)
       ∧ Firebase.getVideos c r.2 = Firebase.getVideos c lib
       ∧ Firebase.getExams c r.2 = Firebase.getExams c lib)
  ∧ (∀ id iso url mime cls t title, Firebase.videos lib !! id = None →
       let r := Firebase.uploadVideo id iso url mime cls t title lib in
       Firebase.getVideos cls r.2 ≡ₚ r.1 :: Firebase.getVideos cls lib
       ∧ (c ≠ cls → Firebase.getVideos c r.2 ≡ₚ Firebase.getVideos c lib)
       ∧ Firebase.getPosts c r.2 = Firebase.getPosts c lib
       ∧ Firebase.getExams c r.2 = Firebase.getExams c lib)
  ∧ (∀ id iso exam,
       let r := Firebase.createExam id iso exam lib in
       r.1 ∈ Firebase.getExams (Firebase.x_class_id exam) r.2
       ∧ Firebase.x_active r.1 = true
       ∧ Firebase.x_questions r.1 = Firebase.x_questions exam).
Proof.
  split_and!.
  - apply query_desc_sorted.
  - apply query_desc_sorted.
  - intros p. apply (elem_of_query_desc (λ p, Firebase.p_class_id p = c)).
  - intros v. apply (elem_of_query_desc (λ v, Firebase.v_class_id v = c)).
  - intros id iso post Hfresh. simpl. unfold Firebase.getPosts. simpl.
    split_and!; try done.
    + rewrite (query_desc_insert _ _ _ _ _ Hfresh).
      by rewrite decide_True.
    + intros Hc. rewrite (query_desc_insert _ _ _ _ _ Hfresh).
      rewrite decide_False; [done|]. simpl. congruence.
  - intros id iso url mime cls t title Hfresh. simpl.
    unfold Firebase.getVideos. simpl. split_and!; try done.
    + rewrite (query_desc_insert _ _ _ _ _ Hfresh).
      by rewrite decide_True.
    + intros Hc. rewrite (query_desc_insert _ _ _ _ _ Hfresh).
      rewrite decide_False; [done|]. simpl. congruence.
  - intros id iso exam. simpl. split_and!; try done.
    unfold Firebase.getExams. simpl. apply list_elem_of_fmap.
    eexists (id, _). split; [done|]. apply list_elem_of_filter.
    split; [done|]. apply elem_of_map_to_list, lookup_insert_eq.
Qed.

Lemma firestore_content_lists_witness :
  let lib := Firebase.mkLibrary ∅ ∅ ∅ in
  let post := Firebase.mkPost "" "c1" "uid1" "Bob" "Hello" "First post" ""
                None in
  Firebase.getPosts "c1" (Firebase.createPost "p1" Scenario.boot post lib).2
  ≡ₚ (Firebase.createPost "p1" Scenario.boot post lib).1
     :: Firebase.getPosts "c1" lib.
Proof.
  intros lib post.
  pose proof (firestore_content_lists "c1" lib)
    as (_ & _ & _ & _ & Hpost & _).
  apply (Hpost "p1" Scenario.boot post). reflexivity.
Defined.

(** ** A student who has just been created and enrolled *)

(** X18.  After [createStudentAndEnroll] the new student can be looked up
    by id, has a row with the student's id and name in the analytics of
    the class, and is registered under the address that [login] derives
    when the student signs in with the access code alone.  The in-memory
    service likewise shows a row with the new id in the analytics of the
    class. *)
Theorem created_student_is_visible :
  (∀ uid code enrollId iso c name db,
     let m := Firebase.createStudentAndEnroll uid code enrollId iso c name in
     let db' := Firebase.after m db in
     ∃ student,
       m db = (db', Firebase.Ok (student, code))
       ∧ Firebase.getUserById uid db' = (db', Firebase.Ok (Some student))
       ∧ Firebase.u_role student = STUDENT
       ∧ (∃ rows, Firebase.getClassAnalytics c db' = (db', Firebase.Ok rows)
                  ∧ Firebase.stats_row student ∈ rows)
       ∧ ("@"%char ∉ list_ascii_of_string code →
            Firebase.u_email student
            = Some (Firebase.loginEmail code code STUDENT)))
  ∧ (∀ now1 now2 code c name s,
       let r := Mock.createStudentAndEnroll now1 now2 code c name s in
       ∃ row, row ∈ Mock.getClassAnalytics c r.2
              ∧ Mock.a_id row = Mock.u_id r.1.1).
Proof.
  split.
  - intros uid code enrollId iso c name db. simpl. eexists.
    split; [done|]. split_and!; try done.
    + unfold Firebase.getUserById, Firebase.getDoc, Firebase.after. simpl.
      by rewrite lookup_insert_eq.
    + eexists. split; [apply getClassAnalytics_fb_spec|].
      apply list_elem_of_fmap. eexists. split; [done|].
      apply list_elem_of_omap.
      exists (enrollId, Firebase.mkEnrollment enrollId c uid iso). split.
      * apply classEnrollmentDocs_spec. unfold Firebase.after. simpl.
        by rewrite lookup_insert_eq.
      * unfold Firebase.after. simpl. by rewrite lookup_insert_eq.
    + intros Hat. unfold Firebase.loginEmail. simpl.
      by rewrite bool_decide_eq_false_2.
  - intros now1 now2 code c name s. simpl.
    unfold Mock.getClassAnalytics, Mock.classEnrollments. simpl.
    rewrite filter_app, filter_cons_True, filter_nil, omap_app by done.
    simpl.
    destruct (Mock.find_user ("student-" +:+ pretty now1)
                (Mock.users s ++
                 [Mock.mkUser ("student-" +:+ pretty now1) STUDENT name
                    (Some code)])) as [u|] eqn:Hu.
    + exists (Mock.stats_row u). split.
      * rewrite fmap_app. apply elem_of_app. right. apply list_elem_of_here.
      * simpl. by apply find_user_id in Hu.
    + exfalso. revert Hu.
      induction (Mock.users s) as [|u us IH]; simpl.
      * by rewrite bool_decide_eq_true_2.
      * by case_bool_decide.
Qed.

Lemma created_student_is_visible_witness :
  ∃ student,
    Firebase.createStudentAndEnroll "uid9" "Q7W8E9R0" "e9" Scenario.boot "c1"
      "Ann" Scenario.fb_offline
    = (Firebase.after
         (Firebase.createStudentAndEnroll "uid9" "Q7W8E9R0" "e9" Scenario.boot
            "c1" "Ann") Scenario.fb_offline,
       Firebase.Ok (student, "Q7W8E9R0"))
    ∧ Firebase.u_email student
      = Some (Firebase.loginEmail "Q7W8E9R0" "Q7W8E9R0" STUDENT).
Proof.
  destruct (proj1 created_student_is_visible "uid9" "Q7W8E9R0" "e9"
              Scenario.boot "c1" "Ann" Scenario.fb_offline)
    as (student & Hrun & _ & _ & _ & Hmail).
  exists student. split; [exact Hrun|]. apply Hmail.
  apply (bool_decide_unpack _). vm_compute. exact I.
Defined.
